(** * kubeip agent: the bootstrap shell of [cmd/main.go]

    A shallow embedding of the agent's entry point: logger construction,
    flag declarations, Kubernetes credential resolution, and the [run]
    function that resolves the node and then parks on the cancellation
    context.  The small parts of logrus, context and urfave/cli the
    program relies on are modelled in modules of their names; the calls
    whose result the program cannot know (os, client-go, the
    repository's own [internal/node] and [internal/config]) are the
    fields of a [World] record.  Every call the program makes is
    recorded in a trace of events, so that "is attempted" and "is never
    attempted" are statements about that trace. *)

From Stdlib Require Import ZArith String Ascii List Bool Lia.
From stdpp Require Import base option list strings gmap.

Open Scope string_scope.
Open Scope list_scope.
Open Scope Z_scope.

(** A Go pointer that may be [nil]: [None] is the nil pointer. *)
Definition ptr (A : Type) : Type := option A.

(** Go's [any], restricted to the dynamic types this program stores. *)
Inductive any : Type :=
| AnyBool (b : bool)
| AnyString (s : string).

#[global] Instance any_eq_dec : EqDecision any.
Proof. solve_decision. Defined.

(** ** Errors ([github.com/pkg/errors]) *)

(** An error value is the package's own sentinel, an error produced by a
    library call, or a wrap of another error with a message.  Library
    errors are a separate constructor: [errEmptyPath] is an unexported
    variable of package [main], no library can return it. *)
Inductive error : Type :=
| errEmptyPath                              (* errors.New("empty path") *)
| External (msg : string)                   (* returned by a library call *)
| withMessage (cause : error) (msg : string). (* built by errors.Wrap *)

#[global] Instance error_eq_dec : EqDecision error.
Proof. solve_decision. Defined.

Module errors.

(** [errors.Wrap(err, msg)]; a nil [err] gives nil. *)
Definition Wrap (err : option error) (msg : string) : option error :=
  match err with
  | Some cause => Some (withMessage cause msg)
  | None => None
  end.

(** [errors.Wrapf(err, format, arg)] for the one-verb formats of the
    program, ["... %s"]: the argument is appended to the prefix. *)
Definition Wrapf (err : option error) (prefix arg : string) : option error :=
  Wrap err (prefix +:+ arg).

(** Go compares error values by identity.  The only error value with
    an identity shared between two program points is the package-level
    sentinel; every [Wrap] and every library call allocates. *)
Definition identical (a b : error) : bool :=
  match a, b with
  | errEmptyPath, errEmptyPath => true
  | _, _ => false
  end.

(** [errors.Is]: walk the [Unwrap] chain looking for [target]. *)
Fixpoint Is (err target : error) : bool :=
  identical err target ||
  match err with
  | withMessage cause _ => Is cause target
  | _ => false
  end.

(** [err.Error()]. *)
Fixpoint Error (err : error) : string :=
  match err with
  | errEmptyPath => "empty path"
  | External msg => msg
  | withMessage cause msg => msg +:+ ": " +:+ Error cause
  end.

End errors.

(** ** Logging ([github.com/sirupsen/logrus]) *)

Module logrus.

Inductive Level : Type :=
| PanicLevel | FatalLevel | ErrorLevel | WarnLevel
| InfoLevel | DebugLevel | TraceLevel.

Inductive Formatter : Type :=
| TextFormatter (FullTimestamp : bool)
| JSONFormatter.

Record Logger : Type := mkLogger {
  Level_ : Level;
  Formatter_ : Formatter;
  ReportCaller : bool
}.

(** [logrus.New()]: info level, default text formatter, no caller. *)
Definition New : Logger :=
  {| Level_ := InfoLevel; Formatter_ := TextFormatter false;
     ReportCaller := false |}.

Definition SetLevel (l : Logger) (lv : Level) : Logger :=
  {| Level_ := lv; Formatter_ := Formatter_ l;
     ReportCaller := ReportCaller l |}.

Definition SetFormatter (l : Logger) (f : Formatter) : Logger :=
  {| Level_ := Level_ l; Formatter_ := f;
     ReportCaller := ReportCaller l |}.

Definition SetReportCaller (l : Logger) (b : bool) : Logger :=
  {| Level_ := Level_ l; Formatter_ := Formatter_ l; ReportCaller := b |}.

(** [logrus.Fields] is a [map[string]interface{}]. *)
Record Entry : Type := mkEntry {
  Logger_ : Logger;
  Data : gmap string any
}.

(** [logger.WithFields(fields)] allocates a new entry. *)
Definition WithFields (l : Logger) (fields : gmap string any) : ptr Entry :=
  Some {| Logger_ := l; Data := fields |}.

(** [entry.WithField(key, value)]: a new entry whose data is the old
    data with [key] (re)bound. *)
Definition Entry_WithField (e : Entry) (key : string) (value : any) : Entry :=
  {| Logger_ := Logger_ e; Data := <[key := value]> (Data e) |}.

End logrus.

Import logrus.

(** ** [prepareLogger] *)

Section Logger.

(** The package variable [version], set at link time. *)
Variable version : string.

(** The [switch level] of [prepareLogger]: the level passed to
    [logger.SetLevel] in each arm. *)
Definition switchLevel (level : string) : Level :=
  if String.eqb level "debug" || String.eqb level "DEBUG" then DebugLevel
  else if String.eqb level "info" || String.eqb level "INFO" then InfoLevel
  else if String.eqb level "warning" || String.eqb level "WARNING" then WarnLevel
  else if String.eqb level "error" || String.eqb level "ERROR" then ErrorLevel
  else if String.eqb level "fatal" || String.eqb level "FATAL" then FatalLevel
  else if String.eqb level "panic" || String.eqb level "PANIC" then PanicLevel
  else WarnLevel.

Definition prepareLogger (level : string) (json : bool) : ptr Entry :=
  let logger := New in
  let logger := SetLevel logger (switchLevel level) in
  let logger := SetFormatter logger (TextFormatter true) in
  let logger := if json then SetFormatter logger JSONFormatter else logger in
  let logger := SetReportCaller logger true in
  let log := WithFields logger {[ "version" := AnyString version ]} in
  log.

End Logger.

(** ** Contexts ([context]) *)

Module context.

(** Context keys are compared by dynamic type and value.  [contextKey]
    is the program's own string type; keys of any other type belong to
    other packages. *)
Definition contextKey : Type := string.

Inductive key : Type :=
| MainKey (k : contextKey)
| ForeignKey (type value : string).

#[global] Instance key_eq_dec : EqDecision key.
Proof. solve_decision. Defined.

(** A context is a chain of derivations from [context.Background()].
    [WithCancel parent called] carries whether the holder of its
    cancel function calls it while the program is waiting. *)
Inductive Context : Type :=
| Background
| WithCancel (parent : Context) (called : bool)
| WithValue (parent : Context) (k : key) (v : any).

(** [ctx.Value(k)]: the innermost binding of [k] along the chain. *)
Fixpoint Value (ctx : Context) (k : key) : option any :=
  match ctx with
  | Background => None
  | WithCancel parent _ => Value parent k
  | WithValue parent k' v =>
      if decide (k' = k) then Some v else Value parent k
  end.

(** Whether the channel [ctx.Done()] is ever closed: a context is done
    once it or any ancestor has been cancelled. *)
Fixpoint Done (ctx : Context) : bool :=
  match ctx with
  | Background => false
  | WithCancel parent called => called || Done parent
  | WithValue parent _ _ => Done parent
  end.

End context.

Import context.

Definition developModeKey : key := MainKey "develop-mode".

(** ** Flags ([github.com/urfave/cli/v2]) *)

Module cli.

Inductive value : Type :=
| VString (s : string)
| VDuration (nanoseconds : Z)
| VInt (n : Z)
| VBool (b : bool).

Record Flag : Type := mkFlag {
  Name : string;
  Usage : string;
  EnvVars : list string;
  Value : value;
  Category : string
}.

(** What one invocation supplies: the flags given on the command line
    and the environment variables that are set to a value of the
    flag's type. *)
Record Context : Type := mkContext {
  Flags : list Flag;
  Args : gmap string value;
  Environ : gmap string value
}.

(** The first variable of [names] that is set. *)
Fixpoint fromEnv (env : gmap string value) (names : list string) : option value :=
  match names with
  | [] => None
  | n :: rest =>
      match env !! n with
      | Some v => Some v
      | None => fromEnv env rest
      end
  end.

(** A flag's value: command line, else environment, else [Value]. *)
Definition lookup (c : Context) (f : Flag) : value :=
  match Args c !! Name f with
  | Some v => v
  | None =>
      match fromEnv (Environ c) (EnvVars f) with
      | Some v => v
      | None => Value f
      end
  end.

Definition flagNamed (c : Context) (name : string) : option Flag :=
  List.find (fun f => String.eqb (Name f) name) (Flags c).

(** The typed accessors return the zero value for a flag that is not
    declared or has another type. *)
Definition String (c : Context) (name : string) : string :=
  match lookup c <$> flagNamed c name with
  | Some (VString s) => s
  | _ => ""
  end.

Definition Bool (c : Context) (name : string) : bool :=
  match lookup c <$> flagNamed c name with
  | Some (VBool b) => b
  | _ => false
  end.

Definition Duration (c : Context) (name : string) : Z :=
  match lookup c <$> flagNamed c name with
  | Some (VDuration d) => d
  | _ => 0
  end.

Definition Int (c : Context) (name : string) : Z :=
  match lookup c <$> flagNamed c name with
  | Some (VInt n) => n
  | _ => 0
  end.

End cli.

(** ** Durations ([time]) *)

Module time.
Definition Nanosecond : Z := 1.
Definition Microsecond : Z := 1000 * Nanosecond.
Definition Millisecond : Z := 1000 * Microsecond.
Definition Second : Z := 1000 * Millisecond.
Definition Minute : Z := 60 * Second.
End time.

Definition defaultRetryInterval : Z := 5 * time.Minute.
Definition defaultRetryAttempts : Z := 10.

(** The [Flags] of the [run] command declared in [main]. *)
Definition runFlags : list cli.Flag :=
  [ cli.mkFlag "node-name"
      "Kubernetes node name (not needed if running in node)"
      ["CLUSTER_NAME"] (cli.VString "") "Configuration";
    cli.mkFlag "kubeconfig"
      "path to Kubernetes configuration file (not needed if running in node)"
      ["KUBECONFIG"] (cli.VString "") "Configuration";
    cli.mkFlag "retry-interval"
      "when the agent fails to assign the static public IP address, it will retry after this interval"
      ["RETRY_INTERVAL"] (cli.VDuration defaultRetryInterval) "Configuration";
    cli.mkFlag "retry-attempts"
      "number of attempts to assign the static public IP address"
      ["RETRY_ATTEMPTS"] (cli.VInt defaultRetryAttempts) "Configuration";
    cli.mkFlag "log-level"
      "set log level (debug, info(*), warning, error, fatal, panic)"
      ["LOG_LEVEL"] (cli.VString "info") "Logging";
    cli.mkFlag "json"
      "produce log in JSON format: Logstash and Splunk friendly"
      ["LOG_JSON"] (cli.VBool false) "Logging";
    cli.mkFlag "develop-mode"
      "enable develop mode"
      ["DEV_MODE"] (cli.VBool false) "Development" ].

(** The context [runCmd] receives: the [run] command's flags with the
    command line and environment of the invocation. *)
Definition runContext (args env : gmap string cli.value) : cli.Context :=
  cli.mkContext runFlags args env.

(** ** The run configuration *)

(** Modelled from the spec: the struct [config.Config] is declared in
    [internal/config], which is not among the sources.  [main.go] reads
    [KubeConfigPath] and [DevelopMode]; the remaining fields are those of
    the spec's data model (node name, retry interval duration, retry
    attempt count, log level string, JSON-logging flag). *)
Record Config : Type := mkConfig {
  NodeName : string;
  KubeConfigPath : string;
  RetryInterval : Z;
  RetryAttempts : Z;
  LogLevel : string;
  LogJSON : bool;
  DevelopMode : bool
}.

(** ** The world the agent runs in *)

(** The outcome of a library call that follows Go's [(value, error)]
    convention: a value and a nil error, or no value and an error. *)
Inductive result (A : Type) : Type :=
| Ok (a : A)
| Err (msg : string).
Arguments Ok {A} a.
Arguments Err {A} msg.

(** The node descriptor returned by the explorer; [run] reads [Name]. *)
Record Node : Type := mkNode { Name : string }.

(** How a computation ends: with a value, in a panic, by exiting the
    process, or blocked forever on a channel. *)
Inductive ctl (A : Type) : Type :=
| Val (a : A)
| Panic (msg : string)
| Exit (code : Z)
| Block.
Arguments Val {A} a.
Arguments Panic {A} msg.
Arguments Exit {A} code.
Arguments Block {A}.

Section Agent.

(** [rest.Config] and [kubernetes.Clientset] are opaque to [main.go]. *)
Context {RestConfig Clientset : Type}.

Record World : Type := mkWorld {
  (* os.ReadFile(path) *)
  os_ReadFile : string -> result (list Byte.byte);
  (* clientcmd.RESTConfigFromKubeConfig(data) *)
  clientcmd_RESTConfigFromKubeConfig : list Byte.byte -> result RestConfig;
  (* rest.InClusterConfig() *)
  rest_InClusterConfig : result RestConfig;
  (* kubernetes.NewForConfig(restconfig) *)
  kubernetes_NewForConfig : RestConfig -> result Clientset;
  (* node.NewExplorer(clientset).GetNode(ctx) *)
  node_GetNode : Clientset -> Context -> result Node;
  (* config.LoadConfig(c) *)
  config_LoadConfig : cli.Context -> Config;
  (* whether the process receives SIGINT or SIGTERM *)
  shutdown_signal : bool
}.

(** Every call that leaves [main.go], in program order. *)
Inductive event : Type :=
| EvReadFile (path : string)
| EvRESTConfigFromKubeConfig (data : list Byte.byte)
| EvInClusterConfig
| EvNewForConfig (restconfig : RestConfig)
| EvGetNode (clientset : Clientset) (ctx : Context)
| EvLog (entry : Entry) (level : Level) (msg : string)
| EvAwaitDone (ctx : Context)            (* <-ctx.Done() *)
| EvCancel (ctx : Context).              (* the deferred cancel() *)

(** A computation: how it ends and the calls it made. *)
Definition M (A : Type) : Type := ctl A * list event.

#[global] Instance M_ret : MRet M := fun A a => (Val a, []).

#[global] Instance M_bind : MBind M := fun A B f m =>
  match m with
  | (Val a, t1) => let '(r, t2) := f a in (r, t1 ++ t2)
  | (Panic msg, t1) => (Panic msg, t1)
  | (Exit code, t1) => (Exit code, t1)
  | (Block, t1) => (Block, t1)
  end.

Definition emit (ev : event) : M unit := (Val tt, [ev]).
Definition panic {A} (msg : string) : M A := (Panic msg, []).
Definition exit {A} (code : Z) : M A := (Exit code, []).
Definition block {A} : M A := (Block, []).

(** [defer d; body]: [d] runs when [body] returns or panics. *)
Definition defer {A} (d : M unit) (body : M A) : M A :=
  match body with
  | (Val a, t) => (Val a, t ++ d.2)
  | (Panic msg, t) => (Panic msg, t ++ d.2)
  | other => other
  end.

Definition outcome {A} (m : M A) : ctl A := m.1.
Definition trace {A} (m : M A) : list event := m.2.

(** A call to a library function, recorded in the trace. *)
Definition call {A} (ev : event) (r : result A) : M (result A) :=
  emit ev ;; mret r.

Definition nil_dereference : string :=
  "invalid memory address or nil pointer dereference".

(** Methods of [*logrus.Entry]; a nil receiver panics. *)
Definition WithField (log : ptr Entry) (k : string) (v : any) : M (ptr Entry) :=
  match log with
  | Some e => mret (Some (Entry_WithField e k v))
  | None => panic nil_dereference
  end.

Definition Log (log : ptr Entry) (lv : Level) (msg : string) : M unit :=
  match log with
  | Some e => emit (EvLog e lv msg)
  | None => panic nil_dereference
  end.

Definition Debug (log : ptr Entry) (msg : string) : M unit := Log log DebugLevel msg.
Definition Infof (log : ptr Entry) (msg : string) : M unit := Log log InfoLevel msg.

(** [Fatalf] logs at fatal level and then calls [os.Exit(1)]. *)
Definition Fatalf {A} (log : ptr Entry) (msg : string) : M A :=
  Log log FatalLevel msg ;; exit 1.

(** [<-ctx.Done()]: returns once [ctx] is cancelled, else never. *)
Definition awaitDone (ctx : Context) : M unit :=
  emit (EvAwaitDone ctx) ;; if Done ctx then mret tt else block.

Variable w : World.

(** The package variable [version], set at link time. *)
Variable version : string.

(** ** Credential resolution *)

Definition kubeConfigFromPath (kubepath : string) : M (ptr RestConfig * option error) :=
  if String.eqb kubepath "" then mret (None, Some errEmptyPath)
  else
    r ← call (EvReadFile kubepath) (os_ReadFile w kubepath);
    match r with
    | Err e =>
        mret (None, errors.Wrapf (Some (External e)) "reading kubeconfig at " kubepath)
    | Ok data =>
        r ← call (EvRESTConfigFromKubeConfig data)
                 (clientcmd_RESTConfigFromKubeConfig w data);
        match r with
        | Err e =>
            mret (None, errors.Wrapf (Some (External e))
                          "building rest config from kubeconfig at " kubepath)
        | Ok cfg => mret (Some cfg, None)
        end
    end.

Definition retrieveKubeConfig (log : ptr Entry) (cfg : Config)
  : M (ptr RestConfig * option error) :=
  '(kubeconfig, err) ← kubeConfigFromPath (KubeConfigPath cfg);
  if match err with                (* err != nil && !errors.Is(err, errEmptyPath) *)
     | Some e => negb (errors.Is e errEmptyPath)
     | None => false
     end
  then mret (None, errors.Wrap err "retrieving kube config from path")
  else
    match kubeconfig with
    | Some _ =>
        Debug log "using kube config from env variables" ;;
        mret (kubeconfig, None)
    | None =>
        r ← call EvInClusterConfig (rest_InClusterConfig w);
        match r with
        | Err e =>
            mret (None, errors.Wrap (Some (External e)) "retrieving in node kube config")
        | Ok inClusterConfig =>
            Debug log "using in node kube config" ;;
            mret (Some inClusterConfig, None)
        end
    end.

(** ** [run] *)

(** The locals of [run] once its first statements (the derivation of
    [ctx] from [c]) have executed. *)
Record frame : Type := mkFrame {
  ctx : Context;
  cfg : Config
}.

Definition runFrame (c : Context) (cfg : Config) : frame :=
  let ctx := WithCancel c false in
  if DevelopMode cfg
  then mkFrame (WithValue ctx developModeKey (AnyBool true)) cfg
  else mkFrame ctx cfg.

(** [kubernetes.NewForConfig] dereferences its argument. *)
Definition NewForConfig (c : ptr RestConfig) : M (result Clientset) :=
  match c with
  | Some rc => call (EvNewForConfig rc) (kubernetes_NewForConfig w rc)
  | None => panic nil_dereference
  end.

Definition run (c : Context) (log : ptr Entry) (cfg0 : Config) : M (option error) :=
  defer (emit (EvCancel (WithCancel c false))) (
    let fr := runFrame c cfg0 in
    l ← WithField log "develop-mode" (AnyBool (DevelopMode (cfg fr)));
    Infof l "kubeip agent started" ;;
    '(restconfig, err) ← retrieveKubeConfig log (cfg fr);
    match err with
    | Some _ => mret (errors.Wrap err "retrieving kube config")
    | None =>
        r ← NewForConfig restconfig;
        match r with
        | Err e => mret (errors.Wrap (Some (External e)) "initializing kubernetes client")
        | Ok clientset =>
            r ← call (EvGetNode clientset (ctx fr))
                     (node_GetNode w clientset (ctx fr));
            match r with
            | Err e => mret (errors.Wrap (Some (External e)) "getting node")
            | Ok n =>
                Debug log ("node name: " +:+ Name n) ;;
                awaitDone (ctx fr) ;;
                Infof log "kubeip agent stopped" ;;
                mret None
            end
        end
    end).

(** [signals.SetupSignalHandler()]: a context cancelled by the first
    SIGINT or SIGTERM. *)
Definition SetupSignalHandler : Context :=
  WithCancel Background (shutdown_signal w).

Definition runCmd (c : cli.Context) : M (option error) :=
  let ctx := SetupSignalHandler in
  let log := prepareLogger version (cli.String c "log-level") (cli.Bool c "json") in
  let cfg := config_LoadConfig w c in
  err ← run ctx log cfg;
  match err with
  | Some e => Fatalf log ("eks-lens agent failed: " +:+ errors.Error e)
  | None => mret None
  end.

(** ** Reading the trace *)

(** The two credential sources. *)
Inductive source : Type := KubeConfigFile | InCluster.

#[global] Instance source_eq_dec : EqDecision source.
Proof. solve_decision. Defined.

(** The library calls of the bootstrap. *)
Inductive callKind : Type :=
| CallReadFile | CallParse | CallInCluster | CallNewForConfig | CallGetNode.

#[global] Instance callKind_eq_dec : EqDecision callKind.
Proof. solve_decision. Defined.

Definition kindOf (ev : event) : option callKind :=
  match ev with
  | EvReadFile _ => Some CallReadFile
  | EvRESTConfigFromKubeConfig _ => Some CallParse
  | EvInClusterConfig => Some CallInCluster
  | EvNewForConfig _ => Some CallNewForConfig
  | EvGetNode _ _ => Some CallGetNode
  | _ => None
  end.

(** Reading or parsing the kubeconfig file consults the first source,
    in-cluster discovery the second. *)
Definition sourceOf (ev : event) : option source :=
  match kindOf ev with
  | Some CallReadFile | Some CallParse => Some KubeConfigFile
  | Some CallInCluster => Some InCluster
  | _ => None
  end.

Definition uses (s : source) (t : list event) : bool :=
  existsb (fun ev => bool_decide (sourceOf ev = Some s)) t.

(** How many times a library call was made. *)
Definition attempts (k : callKind) (t : list event) : nat :=
  length (filter (fun ev => kindOf ev = Some k) t).

(** Whether the program reached [<-ctx.Done()]. *)
Definition awaits (t : list event) : bool :=
  existsb (fun ev => match ev with EvAwaitDone _ => true | _ => false end) t.

(** A failure of one of the three bootstrap steps of [run], with the
    message [run] wraps it in and the error the step produced. *)
Inductive bootstrap_failure (c : Context) (log : ptr Entry) (cfg0 : Config)
  : string -> error -> Prop :=
| FailKubeConfig (e : error) :
    outcome (retrieveKubeConfig log cfg0) = Val (None, Some e) ->
    bootstrap_failure c log cfg0 "retrieving kube config" e
| FailClient (rc : RestConfig) (msg : string) :
    outcome (retrieveKubeConfig log cfg0) = Val (Some rc, None) ->
    kubernetes_NewForConfig w rc = Err msg ->
    bootstrap_failure c log cfg0 "initializing kubernetes client" (External msg)
| FailNode (rc : RestConfig) (cs : Clientset) (msg : string) :
    outcome (retrieveKubeConfig log cfg0) = Val (Some rc, None) ->
    kubernetes_NewForConfig w rc = Ok cs ->
    node_GetNode w cs (ctx (runFrame c cfg0)) = Err msg ->
    bootstrap_failure c log cfg0 "getting node" (External msg).

End Agent.

Arguments World : clear implicits.
Arguments event : clear implicits.

(** ** Vocabulary of the specification *)

(** The stage of [kubeConfigFromPath] an error message names. *)
Inductive stage : Type := ReadStage | ParseStage.

Definition failingStage (err : error) : option stage :=
  match err with
  | withMessage _ msg =>
      if String.prefix "reading kubeconfig at " msg then Some ReadStage
      else if String.prefix "building rest config from kubeconfig at " msg
           then Some ParseStage
           else None
  | _ => None
  end.

(** ASCII case mapping, as [strings.ToUpper] and [strings.ToLower] act on
    the letters of the level names. *)
Definition upperAscii (a : ascii) : ascii :=
  let n := nat_of_ascii a in
  if ((97 <=? n) && (n <=? 122))%nat then ascii_of_nat (n - 32) else a.

Definition lowerAscii (a : ascii) : ascii :=
  let n := nat_of_ascii a in
  if ((65 <=? n) && (n <=? 90))%nat then ascii_of_nat (n + 32) else a.

Fixpoint mapString (f : ascii -> ascii) (s : string) : string :=
  match s with
  | EmptyString => EmptyString
  | String a rest => String (f a) (mapString f rest)
  end.

Definition ToUpper : string -> string := mapString upperAscii.
Definition ToLower : string -> string := mapString lowerAscii.

(** Equality up to letter case. *)
Definition EqualFold (s t : string) : bool :=
  String.eqb (ToLower s) (ToLower t).

(** The recognized set of the specification, each word with the level
    it names. *)
Definition recognized : list (string * Level) :=
  [ ("debug", DebugLevel); ("info", InfoLevel); ("warning", WarnLevel);
    ("error", ErrorLevel); ("fatal", FatalLevel); ("panic", PanicLevel) ].

Definition levelOf (log : ptr Entry) : option Level :=
  (fun e => Level_ (Logger_ e)) <$> log.


(** ** Sample worlds *)

Module Sample.

Definition kubeconfigBytes : list Byte.byte := [Byte.x61; Byte.x70; Byte.x69].

(** A workstation: a kubeconfig at [/home/dev/.kube/config], an empty
    file at [/etc/garbage], no service account, a reachable cluster, a
    loader that fills each field from the flag of the same meaning, and
    a shutdown signal. *)
Definition workstation : World string string :=
  {| os_ReadFile := fun path =>
       if String.eqb path "/home/dev/.kube/config" then Ok kubeconfigBytes
       else if String.eqb path "/etc/garbage" then Ok []
       else Err "open: no such file or directory";
     clientcmd_RESTConfigFromKubeConfig := fun data =>
       match data with
       | [] => Err "invalid configuration: no configuration has been provided"
       | _ => Ok "https://cluster.example:6443"
       end;
     rest_InClusterConfig :=
       Err "unable to load in-cluster configuration";
     kubernetes_NewForConfig := fun rc => Ok ("client of " +:+ rc);
     node_GetNode := fun _ _ => Ok (mkNode "node-1");
     config_LoadConfig := fun c =>
       mkConfig (cli.String c "node-name") (cli.String c "kubeconfig")
                (cli.Duration c "retry-interval") (cli.Int c "retry-attempts")
                (cli.String c "log-level") (cli.Bool c "json")
                (cli.Bool c "develop-mode");
     shutdown_signal := true |}.

(** A pod: no kubeconfig, a mounted service account. *)
Definition pod : World string string :=
  {| os_ReadFile := fun _ => Err "open: no such file or directory";
     clientcmd_RESTConfigFromKubeConfig := fun _ => Err "unreachable";
     rest_InClusterConfig := Ok "https://10.0.0.1:443";
     kubernetes_NewForConfig := fun rc => Ok ("client of " +:+ rc);
     node_GetNode := fun _ _ => Ok (mkNode "gke-node-7");
     config_LoadConfig := config_LoadConfig workstation;
     shutdown_signal := true |}.

(** A pod whose API server refuses the node lookup. *)
Definition forbidden : World string string :=
  {| os_ReadFile := os_ReadFile pod;
     clientcmd_RESTConfigFromKubeConfig := clientcmd_RESTConfigFromKubeConfig pod;
     rest_InClusterConfig := rest_InClusterConfig pod;
     kubernetes_NewForConfig := kubernetes_NewForConfig pod;
     node_GetNode := fun _ _ => Err "nodes is forbidden";
     config_LoadConfig := config_LoadConfig pod;
     shutdown_signal := false |}.

Definition logger : Entry :=
  {| Logger_ := logrus.New; Data := ∅ |}.

Definition config (path : string) (develop : bool) : Config :=
  mkConfig "" path defaultRetryInterval defaultRetryAttempts "info" false develop.

End Sample.

(** ** Further vocabulary for traces *)

(** The library calls of a trace, in the order they were made. *)
Definition kinds {RestConfig Clientset : Type}
    (t : list (event RestConfig Clientset)) : list callKind :=
  omap kindOf t.

Definition isCancel {RestConfig Clientset : Type}
    (ev : event RestConfig Clientset) : bool :=
  match ev with EvCancel _ => true | _ => false end.

Definition isFatalLog {RestConfig Clientset : Type}
    (ev : event RestConfig Clientset) : bool :=
  match ev with EvLog _ FatalLevel _ => true | _ => false end.

(** The log lines of a trace: entry, level and message. *)
Definition logLines {RestConfig Clientset : Type}
    (t : list (event RestConfig Clientset)) : list (Entry * Level * string) :=
  omap (fun ev => match ev with
                  | EvLog e lv msg => Some (e, lv, msg)
                  | _ => None
                  end) t.

Definition failed {A : Type} (r : result A) : bool :=
  match r with
  | Err _ => true
  | Ok _ => false
  end.

(** Whether the library call an event records returned an error: the
    world's answer to that call. *)
Definition callFailed {RestConfig Clientset : Type}
    (w : World RestConfig Clientset) (ev : event RestConfig Clientset) : bool :=
  match ev with
  | EvReadFile path => failed (os_ReadFile w path)
  | EvRESTConfigFromKubeConfig data =>
      failed (clientcmd_RESTConfigFromKubeConfig w data)
  | EvInClusterConfig => failed (rest_InClusterConfig w)
  | EvNewForConfig rc => failed (kubernetes_NewForConfig w rc)
  | EvGetNode cs x => failed (node_GetNode w cs x)
  | _ => false
  end.

(** The bytes of a string. *)
Definition bytesOf (s : string) : list ascii := list_ascii_of_string s.

(** ** The chart's named templates ([chart/templates/_helpers.tpl]) *)

(** The template functions the helpers pipe their values through
    (Sprig, as Helm exposes it), on strings as byte sequences. *)
Module sprig.

(** [default d v]: [v] unless it is empty. *)
Definition default (d given : string) : string :=
  if String.eqb given "" then d else given.

(** [trunc c s] for [c >= 0]: [s[:c]] when [len(s) > c], else [s]. *)
Definition trunc (c : nat) (s : string) : string :=
  if (c <? String.length s)%nat then String.substring 0 c s else s.

(** [strings.HasSuffix(s, suffix)]. *)
Definition hasSuffix (s suffix : string) : bool :=
  (String.length suffix <=? String.length s)%nat &&
  String.eqb
    (String.substring (String.length s - String.length suffix)
                      (String.length suffix) s)
    suffix.

(** [trimSuffix suffix s] is [strings.TrimSuffix(s, suffix)]: one
    trailing occurrence of [suffix] is removed. *)
Definition trimSuffix (suffix s : string) : string :=
  if hasSuffix s suffix
  then String.substring 0 (String.length s - String.length suffix) s
  else s.

(** [contains substr str] is [strings.Contains(str, substr)]. *)
Definition contains (substr str : string) : bool :=
  match String.index 0 substr str with
  | Some _ => true
  | None => false
  end.

(** [replace old new src] is [strings.Replace(src, old, new, -1)], for
    the one-byte [old] the chart uses. *)
Fixpoint replace (old : ascii) (new src : string) : string :=
  match src with
  | EmptyString => EmptyString
  | String a rest =>
      if Ascii.eqb a old then new +:+ replace old new rest
      else String a (replace old new rest)
  end.

(** [printf "%s-%s" a b]. *)
Definition printf_dash (a b : string) : string := a +:+ "-" +:+ b.

End sprig.

Module helpers.

(** The part of the render context the helpers read.  An unset value
    and an empty string are the same to [default] and to [if]. *)
Record Chart : Type := mkChart {
  Chart_Name : string;
  Chart_Version : string
}.

Record Release : Type := mkRelease {
  Release_Name : string;
  Release_Namespace : string
}.

Record ServiceAccount : Type := mkServiceAccount {
  create : bool;
  name : string
}.

Record Values : Type := mkValues {
  nameOverride : string;
  fullnameOverride : string;
  namespaceOverride : string;
  serviceAccount : ServiceAccount
}.

Record Dot : Type := mkDot {
  chart : Chart;
  release : Release;
  values : Values
}.

(** The truthiness of a string in [{{ if }}]. *)
Definition nonEmpty (s : string) : bool := negb (String.eqb s "").

(** [define "kubeip.name"]. *)
Definition kubeip_name (dot : Dot) : string :=
  sprig.trimSuffix "-"
    (sprig.trunc 63
       (sprig.default (Chart_Name (chart dot)) (nameOverride (values dot)))).

(** [define "kubeip.fullname"]. *)
Definition kubeip_fullname (dot : Dot) : string :=
  if nonEmpty (fullnameOverride (values dot)) then
    sprig.trimSuffix "-" (sprig.trunc 63 (fullnameOverride (values dot)))
  else
    let name := sprig.default (Chart_Name (chart dot)) (nameOverride (values dot)) in
    if sprig.contains name (Release_Name (release dot)) then
      sprig.trimSuffix "-" (sprig.trunc 63 (Release_Name (release dot)))
    else
      sprig.trimSuffix "-"
        (sprig.trunc 63 (sprig.printf_dash (Release_Name (release dot)) name)).

(** [define "kubeip.namespace"]. *)
Definition kubeip_namespace (dot : Dot) : string :=
  if nonEmpty (namespaceOverride (values dot))
  then namespaceOverride (values dot)
  else Release_Namespace (release dot).

(** [define "kubeip.chart"]. *)
Definition kubeip_chart (dot : Dot) : string :=
  sprig.trimSuffix "-"
    (sprig.trunc 63
       (sprig.replace "+" "_"
          (sprig.printf_dash (Chart_Name (chart dot)) (Chart_Version (chart dot))))).

(** [define "kubeip.serviceAccountName"]. *)
Definition kubeip_serviceAccountName (dot : Dot) : string :=
  if create (serviceAccount (values dot))
  then sprig.default (kubeip_fullname dot) (name (serviceAccount (values dot)))
  else sprig.default "default" (name (serviceAccount (values dot))).

(** A render context with the given names and nothing overridden. *)
Definition plain (chartName chartVersion releaseName : string) : Dot :=
  mkDot (mkChart chartName chartVersion)
        (mkRelease releaseName "kube-system")
        (mkValues "" "" "" (mkServiceAccount true "")).

End helpers.

(** * Properties *)

(** ** The logger *)

Section LoggerFacts.

Variable version : string.

Lemma prepareLogger_entry level json :
  prepareLogger version level json =
  Some {| Logger_ := {| Level_ := switchLevel level;
                        Formatter_ := if json then JSONFormatter
                                      else TextFormatter true;
                        ReportCaller := true |};
          Data := {[ "version" := AnyString version ]} |}.
Proof. unfold prepareLogger. destruct json; reflexivity. Qed.

Lemma levelOf_prepareLogger level json :
  levelOf (prepareLogger version level json) = Some (switchLevel level).
Proof. rewrite prepareLogger_entry. reflexivity. Qed.

(** A string outside the twelve spellings of the switch falls through
    to the default arm. *)
Lemma switchLevel_default level :
  (forall word lv, In (word, lv) recognized ->
                   level <> word /\ level <> ToUpper word) ->
  switchLevel level = WarnLevel.
Proof.
  intros Hout.
  assert (Hspell : forall word lv, In (word, lv) recognized ->
            String.eqb level word = false /\
            String.eqb level (ToUpper word) = false).
  { intros word lv Hin. destruct (Hout word lv Hin).
    split; apply String.eqb_neq; assumption. }
  unfold switchLevel.
  destruct (Hspell "debug" DebugLevel) as [-> E1]; [simpl; tauto |].
  destruct (Hspell "info" InfoLevel) as [-> E2]; [simpl; tauto |].
  destruct (Hspell "warning" WarnLevel) as [-> E3]; [simpl; tauto |].
  destruct (Hspell "error" ErrorLevel) as [-> E4]; [simpl; tauto |].
  destruct (Hspell "fatal" FatalLevel) as [-> E5]; [simpl; tauto |].
  destruct (Hspell "panic" PanicLevel) as [-> E6]; [simpl; tauto |].
  vm_compute (ToUpper _) in E1, E2, E3, E4, E5, E6.
  rewrite E1, E2, E3, E4, E5, E6. reflexivity.
Qed.

End LoggerFacts.

(** C4, as amended.  [prepareLogger] recognizes exactly two spellings of
    each word of the recognized set, the all-lowercase and the
    all-uppercase one, and selects the level the word names; every other
    level string, a mixed-case spelling included, selects the warning
    level. *)
Theorem prepareLogger_recognized_spellings (version : string) (json : bool) :
  (forall word lv, In (word, lv) recognized ->
     levelOf (prepareLogger version word json) = Some lv /\
     levelOf (prepareLogger version (ToUpper word) json) = Some lv) /\
  (forall level,
     (forall word lv, In (word, lv) recognized ->
                      level <> word /\ level <> ToUpper word) ->
     levelOf (prepareLogger version level json) = Some WarnLevel).
Proof.
  split.
  - intros word lv Hin. rewrite !levelOf_prepareLogger.
    simpl in Hin.
    repeat destruct Hin as [Hin | Hin]; try contradiction;
      injection Hin as <- <-; split; reflexivity.
  - intros level Hout. rewrite levelOf_prepareLogger.
    f_equal. apply switchLevel_default, Hout.
Qed.

Lemma prepareLogger_recognized_spellings_witness :
  levelOf (prepareLogger "v2.0.0" "FATAL" true) = Some FatalLevel /\
  levelOf (prepareLogger "v2.0.0" "Debug" true) = Some WarnLevel.
Proof.
  destruct (prepareLogger_recognized_spellings "v2.0.0" true) as [Hin Hout].
  split.
  - apply (Hin "fatal" FatalLevel). simpl. tauto.
  - apply (Hout "Debug"). intros word lv H. simpl in H.
    repeat destruct H as [H | H]; try contradiction;
      injection H as <- <-; split; discriminate.
Defined.

(** C4, as stated, fails: ["Debug"] is a mix of upper and lower case of
    the recognized word ["debug"], and selects the warning level, not
    the debug level. *)
Lemma prepareLogger_mixed_case_counterexample :
  EqualFold "Debug" "debug" = true /\
  In ("debug", DebugLevel) recognized /\
  levelOf (prepareLogger "v2.0.0" "Debug" false) = Some WarnLevel /\
  ~ (forall version level json word lv,
       In (word, lv) recognized -> EqualFold level word = true ->
       levelOf (prepareLogger version level json) = Some lv).
Proof.
  split; [reflexivity |]. split; [simpl; tauto |]. split; [reflexivity |].
  intros Hclaim.
  specialize (Hclaim "v2.0.0" "Debug" false "debug" DebugLevel).
  discriminate Hclaim; [simpl; tauto | reflexivity].
Qed.

(** C9.  [prepareLogger] is total: for every level string and every
    value of the json flag it returns a non-nil entry whose data carry
    the version field, and the formatter is the JSON formatter whenever
    json is true (the text formatter with full timestamps otherwise),
    whatever the level string. *)
Theorem prepareLogger_total (version level : string) (json : bool) :
  exists e : Entry,
    prepareLogger version level json = Some e /\
    Data e !! "version" = Some (AnyString version) /\
    Formatter_ (Logger_ e) =
      (if json then JSONFormatter else TextFormatter true) /\
    ReportCaller (Logger_ e) = true.
Proof.
  rewrite prepareLogger_entry. eexists. split; [reflexivity |].
  simpl. split; [apply lookup_singleton_eq |]. split; reflexivity.
Qed.

(** ** The flags *)

Lemma lookup_absent (args env : gmap string cli.value) (f : cli.Flag) :
  args !! cli.Name f = None ->
  cli.fromEnv env (cli.EnvVars f) = None ->
  cli.lookup (runContext args env) f = cli.Value f.
Proof.
  intros Hargs Henv. unfold cli.lookup. simpl. rewrite Hargs, Henv. reflexivity.
Qed.

(** C7.  With neither the [retry-interval] flag nor [RETRY_INTERVAL]
    given, the retry interval is 5 minutes (300 s, in nanoseconds); with
    neither the [retry-attempts] flag nor [RETRY_ATTEMPTS] given, the
    retry attempt count is 10. *)
Theorem retry_defaults (args env : gmap string cli.value) :
  (args !! "retry-interval" = None -> env !! "RETRY_INTERVAL" = None ->
   cli.Duration (runContext args env) "retry-interval" = 5 * time.Minute /\
   5 * time.Minute = 300 * 1000000000) /\
  (args !! "retry-attempts" = None -> env !! "RETRY_ATTEMPTS" = None ->
   cli.Int (runContext args env) "retry-attempts" = 10).
Proof.
  split; intros Hargs Henv.
  - split; [| reflexivity].
    unfold cli.Duration.
    change (cli.flagNamed (runContext args env) "retry-interval")
      with (Some (cli.mkFlag "retry-interval"
        "when the agent fails to assign the static public IP address, it will retry after this interval"
        ["RETRY_INTERVAL"] (cli.VDuration defaultRetryInterval) "Configuration")).
    simpl fmap. rewrite lookup_absent; [reflexivity | exact Hargs |].
    simpl. rewrite Henv. reflexivity.
  - unfold cli.Int.
    change (cli.flagNamed (runContext args env) "retry-attempts")
      with (Some (cli.mkFlag "retry-attempts"
        "number of attempts to assign the static public IP address"
        ["RETRY_ATTEMPTS"] (cli.VInt defaultRetryAttempts) "Configuration")).
    simpl fmap. rewrite lookup_absent; [reflexivity | exact Hargs |].
    simpl. rewrite Henv. reflexivity.
Qed.

Lemma retry_defaults_witness :
  cli.Duration (runContext {[ "json" := cli.VBool true ]} ∅) "retry-interval"
    = 300000000000 /\
  cli.Int (runContext ∅ {[ "LOG_LEVEL" := cli.VString "debug" ]}) "retry-attempts"
    = 10.
Proof.
  split.
  - apply (proj1 (retry_defaults {[ "json" := cli.VBool true ]} ∅));
      vm_compute; reflexivity.
  - apply (proj2 (retry_defaults ∅ {[ "LOG_LEVEL" := cli.VString "debug" ]}));
      vm_compute; reflexivity.
Defined.

(** ** Credential resolution *)

Lemma prefix_append (p s : string) : String.prefix p (p +:+ s) = true.
Proof.
  induction p as [| a p IH]; simpl.
  - destruct s; reflexivity.
  - destruct (ascii_dec a a) as [_ | Hne]; [exact IH | contradiction].
Qed.

Lemma failingStage_read (cause : error) (kubepath : string) :
  failingStage (withMessage cause ("reading kubeconfig at " +:+ kubepath))
  = Some ReadStage.
Proof. unfold failingStage. rewrite prefix_append. reflexivity. Qed.

Lemma failingStage_parse (cause : error) (kubepath : string) :
  failingStage
    (withMessage cause ("building rest config from kubeconfig at " +:+ kubepath))
  = Some ParseStage.
Proof.
  unfold failingStage. rewrite prefix_append.
  replace (String.prefix "reading kubeconfig at "
             ("building rest config from kubeconfig at " +:+ kubepath))
    with false by reflexivity.
  reflexivity.
Qed.

Ltac unfold_agent :=
  unfold run, runFrame, retrieveKubeConfig, kubeConfigFromPath, NewForConfig,
    defer, awaitDone, Fatalf, Debug, Infof, Log, WithField, call, emit, panic,
    exit, block, outcome, trace, errors.Wrapf, errors.Wrap,
    mbind, M_bind, mret, M_ret in *.

Section AgentFacts.

Context {RestConfig Clientset : Type}.
Variable w : World RestConfig Clientset.

(** [kubeConfigFromPath], computed. *)
Lemma kubeConfigFromPath_eq (kubepath : string) :
  kubeConfigFromPath w kubepath =
  if String.eqb kubepath "" then (Val (None, Some errEmptyPath), [])
  else
    match os_ReadFile w kubepath with
    | Err m =>
        (Val (None, Some (withMessage (External m)
                            ("reading kubeconfig at " +:+ kubepath))),
         [EvReadFile kubepath])
    | Ok data =>
        match clientcmd_RESTConfigFromKubeConfig w data with
        | Err m =>
            (Val (None, Some (withMessage (External m)
               ("building rest config from kubeconfig at " +:+ kubepath))),
             [EvReadFile kubepath; EvRESTConfigFromKubeConfig data])
        | Ok cfg =>
            (Val (Some cfg, None),
             [EvReadFile kubepath; EvRESTConfigFromKubeConfig data])
        end
    end.
Proof.
  unfold_agent.
  destruct (String.eqb kubepath ""); [reflexivity |].
  destruct (os_ReadFile w kubepath) as [data | m]; [| reflexivity].
  destruct (clientcmd_RESTConfigFromKubeConfig w data); reflexivity.
Qed.

(** C3.  For a non-empty path, a file that cannot be read gives the
    read-stage error (the library's error wrapped with "reading
    kubeconfig at <path>") and the parser is never called; a readable
    file that does not parse gives the parse-stage error (wrapped with
    "building rest config from kubeconfig at <path>"); and every error
    the function returns names the stage that failed. *)
Theorem kubeConfigFromPath_failing_stage (kubepath : string) :
  kubepath <> "" ->
  (forall m, os_ReadFile w kubepath = Err m ->
     exists err,
       kubeConfigFromPath w kubepath =
         (Val (None, Some err), [EvReadFile kubepath]) /\
       err = withMessage (External m) ("reading kubeconfig at " +:+ kubepath) /\
       failingStage err = Some ReadStage) /\
  (forall data m, os_ReadFile w kubepath = Ok data -> clientcmd_RESTConfigFromKubeConfig w data = Err m ->
     exists err,
       kubeConfigFromPath w kubepath =
         (Val (None, Some err),
          [EvReadFile kubepath; EvRESTConfigFromKubeConfig data]) /\
       err = withMessage (External m)
               ("building rest config from kubeconfig at " +:+ kubepath) /\
       failingStage err = Some ParseStage) /\
  (forall cfg err,
     outcome (kubeConfigFromPath w kubepath) = Val (cfg, Some err) ->
     cfg = None /\
     ((failingStage err = Some ReadStage /\
       exists m, os_ReadFile w kubepath = Err m) \/
      (failingStage err = Some ParseStage /\
       exists data m, os_ReadFile w kubepath = Ok data /\ clientcmd_RESTConfigFromKubeConfig w data = Err m))).
Proof.
  intros Hpath. apply String.eqb_neq in Hpath.
  rewrite kubeConfigFromPath_eq, Hpath.
  split; [| split].
  - intros m ->. eexists. split; [reflexivity |]. split; [reflexivity |].
    apply failingStage_read.
  - intros data m -> ->. eexists. split; [reflexivity |].
    split; [reflexivity |]. apply failingStage_parse.
  - intros cfg err.
    destruct (os_ReadFile w kubepath) as [data | m].
    + destruct (clientcmd_RESTConfigFromKubeConfig w data) as [c | m] eqn:Hparse; unfold outcome; simpl;
        intros H; inversion H; subst.
      split; [reflexivity |]. right. split; [apply failingStage_parse |].
      eauto.
    + unfold outcome; simpl. intros H; inversion H; subst.
      split; [reflexivity |]. left. split; [apply failingStage_read |]. eauto.
Qed.

(** C2.  With an empty kubeconfig path, [kubeConfigFromPath] returns
    the sentinel error without making any call, and
    [retrieveKubeConfig] goes on to in-cluster discovery: the file is
    neither read nor parsed, discovery is attempted (once, as the
    first call), and the result is that of the discovery alone. *)
Theorem empty_path_uses_in_cluster (log : ptr Entry) (cfg : Config) :
  KubeConfigPath cfg = "" ->
  kubeConfigFromPath w (KubeConfigPath cfg) = (Val (None, Some errEmptyPath), []) /\
  uses KubeConfigFile (trace (retrieveKubeConfig w log cfg)) = false /\
  attempts CallReadFile (trace (retrieveKubeConfig w log cfg)) = 0%nat /\
  attempts CallParse (trace (retrieveKubeConfig w log cfg)) = 0%nat /\
  attempts CallInCluster (trace (retrieveKubeConfig w log cfg)) = 1%nat /\
  head (trace (retrieveKubeConfig w log cfg)) = Some EvInClusterConfig /\
  (forall e, log = Some e ->
     outcome (retrieveKubeConfig w log cfg) =
     match rest_InClusterConfig w with
     | Ok inClusterConfig => Val (Some inClusterConfig, None)
     | Err m =>
         Val (None, Some (withMessage (External m) "retrieving in node kube config"))
     end).
Proof.
  intros Hpath. split.
  - rewrite kubeConfigFromPath_eq, Hpath. reflexivity.
  - unfold retrieveKubeConfig. rewrite kubeConfigFromPath_eq, Hpath.
    unfold_agent. simpl.
    destruct (rest_InClusterConfig w) as [c | m], log as [e |]; simpl;
      repeat split; try reflexivity; intros ? [=].
Qed.

(** C1.  [retrieveKubeConfig] consults exactly one of the two
    credential sources, the kubeconfig file first: when the path
    yields a config, that config is returned and in-cluster discovery
    is not attempted; in-cluster discovery is attempted only when the
    path yields no config. *)
Theorem retrieveKubeConfig_one_source (log : ptr Entry) (cfg : Config) :
  let fromPath := kubeConfigFromPath w (KubeConfigPath cfg) in
  let r := retrieveKubeConfig w log cfg in
  uses KubeConfigFile (trace r) = negb (uses InCluster (trace r)) /\
  (forall k err, outcome fromPath = Val (Some k, err) ->
     uses InCluster (trace r) = false /\
     forall e, log = Some e -> outcome r = Val (Some k, None)) /\
  (uses InCluster (trace r) = true ->
     forall k err, outcome fromPath <> Val (Some k, err)).
Proof.
  cbv zeta. unfold retrieveKubeConfig. rewrite kubeConfigFromPath_eq.
  unfold_agent.
  destruct (String.eqb (KubeConfigPath cfg) ""); simpl.
  - destruct (rest_InClusterConfig w), log; simpl;
      repeat split; try reflexivity; try discriminate.
  - destruct (os_ReadFile w (KubeConfigPath cfg)) as [data | m]; simpl.
    + destruct (clientcmd_RESTConfigFromKubeConfig w data) as [c | m], log;
        simpl; repeat split; try reflexivity; try discriminate;
        intros; congruence.
    + repeat split; try reflexivity; discriminate.
Qed.

(** [retrieveKubeConfig], computed. *)
Lemma retrieveKubeConfig_eq (log : ptr Entry) (cfg0 : Config) :
  retrieveKubeConfig w log cfg0 =
  let path := KubeConfigPath cfg0 in
  if String.eqb path "" then
    match rest_InClusterConfig w with
    | Err m =>
        (Val (None, Some (withMessage (External m) "retrieving in node kube config")),
         [EvInClusterConfig])
    | Ok inClusterConfig =>
        match log with
        | Some e =>
            (Val (Some inClusterConfig, None),
             [EvInClusterConfig; EvLog e DebugLevel "using in node kube config"])
        | None => (Panic nil_dereference, [EvInClusterConfig])
        end
    end
  else
    match os_ReadFile w path with
    | Err m =>
        (Val (None, Some (withMessage
                            (withMessage (External m)
                               ("reading kubeconfig at " +:+ path))
                            "retrieving kube config from path")),
         [EvReadFile path])
    | Ok data =>
        match clientcmd_RESTConfigFromKubeConfig w data with
        | Err m =>
            (Val (None, Some (withMessage
                                (withMessage (External m)
                                   ("building rest config from kubeconfig at "
                                    +:+ path))
                                "retrieving kube config from path")),
             [EvReadFile path; EvRESTConfigFromKubeConfig data])
        | Ok kubeconfig =>
            match log with
            | Some e =>
                (Val (Some kubeconfig, None),
                 [EvReadFile path; EvRESTConfigFromKubeConfig data;
                  EvLog e DebugLevel "using kube config from env variables"])
            | None =>
                (Panic nil_dereference,
                 [EvReadFile path; EvRESTConfigFromKubeConfig data])
            end
        end
    end.
Proof.
  cbv zeta. unfold retrieveKubeConfig. rewrite kubeConfigFromPath_eq.
  unfold_agent.
  destruct (String.eqb (KubeConfigPath cfg0) ""); simpl.
  - destruct (rest_InClusterConfig w), log; reflexivity.
  - destruct (os_ReadFile w (KubeConfigPath cfg0)) as [data | m]; simpl;
      [| reflexivity].
    destruct (clientcmd_RESTConfigFromKubeConfig w data), log; reflexivity.
Qed.

(** Destruct every library result the goal still branches on. *)
Ltac world_cases :=
  repeat match goal with
  | |- context [if String.eqb ?p "" then _ else _] =>
      destruct (String.eqb p "") eqn:?
  | |- context [match os_ReadFile w ?p with _ => _ end] =>
      destruct (os_ReadFile w p) eqn:?
  | |- context [match clientcmd_RESTConfigFromKubeConfig w ?d with _ => _ end] =>
      destruct (clientcmd_RESTConfigFromKubeConfig w d) eqn:?
  | |- context [match rest_InClusterConfig w with _ => _ end] =>
      destruct (rest_InClusterConfig w) eqn:?
  | |- context [match kubernetes_NewForConfig w ?rc with _ => _ end] =>
      destruct (kubernetes_NewForConfig w rc) eqn:?
  | |- context [match node_GetNode w ?cs ?x with _ => _ end] =>
      destruct (node_GetNode w cs x) eqn:?
  | |- context [if Done ?c then _ else _] =>
      destruct (Done c) eqn:?
  end.

(** With a logger, [retrieveKubeConfig] returns a config or an error,
    never both nor neither, and the error is never the sentinel. *)
Lemma retrieveKubeConfig_result (e : Entry) (cfg0 : Config) :
  (exists rc, outcome (retrieveKubeConfig w (Some e) cfg0) = Val (Some rc, None)) \/
  (exists err, outcome (retrieveKubeConfig w (Some e) cfg0) = Val (None, Some err) /\
               errors.Is err errEmptyPath = false).
Proof.
  rewrite retrieveKubeConfig_eq. cbv zeta. world_cases; unfold outcome; simpl; eauto.
Qed.

(** ** [run] *)

Lemma Done_runFrame (c : Context) (cfg0 : Config) :
  Done (ctx (runFrame c cfg0)) = Done c.
Proof. unfold runFrame. destruct (DevelopMode cfg0); reflexivity. Qed.

Lemma cfg_runFrame (c : Context) (cfg0 : Config) : cfg (runFrame c cfg0) = cfg0.
Proof. unfold runFrame. destruct (DevelopMode cfg0); reflexivity. Qed.

(** [run] with a non-nil logger, computed from the result of
    [retrieveKubeConfig] and of the calls that follow it. *)
Lemma run_eq (c : Context) (e : Entry) (cfg0 : Config) :
  let ctx := ctx (runFrame c cfg0) in
  let started :=
    EvLog (Entry_WithField e "develop-mode" (AnyBool (DevelopMode cfg0)))
          InfoLevel "kubeip agent started" in
  let cancel := EvCancel (WithCancel c false) in
  run w c (Some e) cfg0 =
  match retrieveKubeConfig w (Some e) cfg0 with
  | (Val (_, Some err), t) =>
      (Val (Some (withMessage err "retrieving kube config")),
       started :: t ++ [cancel])
  | (Val (None, None), t) =>
      (Panic nil_dereference, started :: t ++ [cancel])
  | (Val (Some rc, None), t) =>
      match kubernetes_NewForConfig w rc with
      | Err m =>
          (Val (Some (withMessage (External m) "initializing kubernetes client")),
           started :: t ++ [EvNewForConfig rc; cancel])
      | Ok cs =>
          match node_GetNode w cs ctx with
          | Err m =>
              (Val (Some (withMessage (External m) "getting node")),
               started :: t ++ [EvNewForConfig rc; EvGetNode cs ctx; cancel])
          | Ok n =>
              if Done c
              then (Val None,
                    started :: t ++
                      [EvNewForConfig rc; EvGetNode cs ctx;
                       EvLog e DebugLevel ("node name: " +:+ Name n);
                       EvAwaitDone ctx;
                       EvLog e InfoLevel "kubeip agent stopped"; cancel])
              else (Block,
                    started :: t ++
                      [EvNewForConfig rc; EvGetNode cs ctx;
                       EvLog e DebugLevel ("node name: " +:+ Name n);
                       EvAwaitDone ctx])
          end
      end
  | (Panic msg, t) => (Panic msg, started :: t ++ [cancel])
  | (Exit code, t) => (Exit code, started :: t)
  | (Block, t) => (Block, started :: t)
  end.
Proof.
  cbv zeta. unfold run. rewrite cfg_runFrame.
  destruct (retrieveKubeConfig w (Some e) cfg0) as [[[[rc |] [err |]] | | |] t];
    unfold_agent; simpl; rewrite ?app_nil_r; try reflexivity.
  destruct (kubernetes_NewForConfig w rc) as [cs | m]; simpl;
      [| rewrite <- ?app_assoc; reflexivity].
  match goal with
  | |- context [node_GetNode w cs ?x] =>
      destruct (node_GetNode w cs x) as [n | m] eqn:Hnode; simpl
  end; [| rewrite <- ?app_assoc; reflexivity].
  pose proof (Done_runFrame c cfg0) as HD. unfold runFrame in HD.
  rewrite HD. destruct (Done c); simpl; rewrite <- ?app_assoc; reflexivity.
Qed.

Ltac exists_prefix n :=
  match goal with
  | |- exists pre, _ /\ ?t = _ => exists (firstn n t); split; reflexivity
  end.

(** [run] with a nil logger panics at its first use. *)
Lemma run_nil_logger (c : Context) (cfg0 : Config) :
  run w c None cfg0 = (Panic nil_dereference, [EvCancel (WithCancel c false)]).
Proof. reflexivity. Qed.

(** C5.  In every run in which node resolution succeeds (the call to
    [GetNode] is made and returns a node), cancellation of the context
    makes [run] return nil: it wakes from the wait, logs the stop and
    returns through the deferred cancel. *)
Theorem run_returns_nil_on_cancellation
    (c : Context) (log : ptr Entry) (cfg0 : Config)
    (cs : Clientset) (ctx' : Context) (n : Node) :
  In (EvGetNode cs ctx') (trace (run w c log cfg0)) ->
  node_GetNode w cs ctx' = Ok n ->
  Done c = true ->
  outcome (run w c log cfg0) = Val None /\
  exists e pre,
    log = Some e /\
    trace (run w c log cfg0) =
      pre ++ [EvGetNode cs ctx';
              EvLog e DebugLevel ("node name: " +:+ Name n);
              EvAwaitDone ctx';
              EvLog e InfoLevel "kubeip agent stopped";
              EvCancel (WithCancel c false)].
Proof.
  intros Hin Hnode Hdone. destruct log as [e |].
  - revert Hin. rewrite run_eq, retrieveKubeConfig_eq. cbv zeta.
    rewrite Hdone.
    world_cases; unfold trace, outcome; simpl; intros Hin;
      repeat (destruct Hin as [Hin | Hin]; try discriminate Hin);
      try contradiction; injection Hin as E1 E2; subst;
      match goal with
      | H1 : node_GetNode w ?a ?b = _, H2 : node_GetNode w ?a ?b = _ |- _ =>
          rewrite H1 in H2; try discriminate H2; injection H2 as ->
      end;
      (split; [reflexivity |]); exists e;
      first [ exists_prefix 5%nat | exists_prefix 4%nat ].
  - rewrite run_nil_logger in Hin. simpl in Hin.
    destruct Hin as [Hin | []]. discriminate Hin.
Qed.

(** Until the context is cancelled a bootstrapped [run] stays in the
    wait. *)
Lemma run_blocks_until_cancelled
    (c : Context) (log : ptr Entry) (cfg0 : Config)
    (cs : Clientset) (ctx' : Context) (n : Node) :
  In (EvGetNode cs ctx') (trace (run w c log cfg0)) ->
  node_GetNode w cs ctx' = Ok n ->
  Done c = false ->
  outcome (run w c log cfg0) = Block.
Proof.
  intros Hin Hnode Hdone. destruct log as [e |].
  - revert Hin. rewrite run_eq, retrieveKubeConfig_eq. cbv zeta.
    rewrite Hdone.
    world_cases; unfold trace, outcome; simpl; intros Hin;
      repeat (destruct Hin as [Hin | Hin]; try discriminate Hin);
      try contradiction; injection Hin as E1 E2; subst; congruence.
  - rewrite run_nil_logger in Hin. simpl in Hin.
    destruct Hin as [Hin | []]. discriminate Hin.
Qed.

(** Destruct the library results of credential resolution only. *)
Ltac credential_cases :=
  repeat match goal with
  | |- context [if String.eqb ?p "" then _ else _] =>
      destruct (String.eqb p "") eqn:?
  | |- context [match os_ReadFile w ?p with _ => _ end] =>
      destruct (os_ReadFile w p) eqn:?
  | |- context [match clientcmd_RESTConfigFromKubeConfig w ?d with _ => _ end] =>
      destruct (clientcmd_RESTConfigFromKubeConfig w d) eqn:?
  | |- context [match rest_InClusterConfig w with _ => _ end] =>
      destruct (rest_InClusterConfig w) eqn:?
  end.

(** Split a concrete trace into a prefix, a last call and the
    deferred cancel. *)
Ltac split_at n :=
  match goal with
  | |- exists pre ev, ?t = _ /\ _ =>
      exists (firstn n t); eexists; split; [reflexivity | simpl; eauto]
  end.

Ltac split_last_call :=
  first [ split_at 1%nat | split_at 2%nat | split_at 3%nat
        | split_at 4%nat | split_at 5%nat | split_at 6%nat ].

(** A failed bootstrap step makes [run] return at once: the result is
    the step's error wrapped with the step's message, the last call
    made is the one that failed, and the wait is not reached. *)
Lemma run_bootstrap_failure
    (c : Context) (e : Entry) (cfg0 : Config) (msg : string) (cause : error) :
  bootstrap_failure w c (Some e) cfg0 msg cause ->
  outcome (run w c (Some e) cfg0) = Val (Some (withMessage cause msg)) /\
  awaits (trace (run w c (Some e) cfg0)) = false /\
  exists pre ev,
    trace (run w c (Some e) cfg0) = pre ++ [ev; EvCancel (WithCancel c false)] /\
    is_Some (kindOf ev).
Proof.
  intros Hfail. rewrite run_eq. cbv zeta.
  destruct Hfail as [err Hcfg | rc m Hcfg Hclient | rc cs m Hcfg Hclient Hnode];
    revert Hcfg; rewrite retrieveKubeConfig_eq; cbv zeta;
    credential_cases; unfold outcome, trace; simpl;
    intros [=]; subst;
    rewrite ?Hclient; simpl; rewrite ?Hnode; simpl;
    (split; [reflexivity |]); (split; [reflexivity |]);
    split_last_call.
Qed.

(** C8.  On a bootstrap error (kube-config retrieval, client
    construction or node resolution) [run] returns the wrapped error
    at once, the failing call being its last, without reaching the
    wait on the context; the sentinel empty-path error is never among
    these errors; and the wait is reached only after all three steps
    have succeeded. *)
Theorem run_waits_only_after_bootstrap (c : Context) (cfg0 : Config) :
  (forall e msg cause,
     bootstrap_failure w c (Some e) cfg0 msg cause ->
     outcome (run w c (Some e) cfg0) = Val (Some (withMessage cause msg)) /\
     awaits (trace (run w c (Some e) cfg0)) = false /\
     errors.Is cause errEmptyPath = false /\
     exists pre ev,
       trace (run w c (Some e) cfg0) = pre ++ [ev; EvCancel (WithCancel c false)] /\
       is_Some (kindOf ev)) /\
  (forall log,
     awaits (trace (run w c log cfg0)) = true ->
     exists rc cs n,
       outcome (retrieveKubeConfig w log cfg0) = Val (Some rc, None) /\
       kubernetes_NewForConfig w rc = Ok cs /\
       node_GetNode w cs (ctx (runFrame c cfg0)) = Ok n).
Proof.
  split.
  - intros e msg cause Hfail.
    destruct (run_bootstrap_failure c e cfg0 msg cause Hfail) as (Hout & Hw & Hlast).
    split; [exact Hout |]. split; [exact Hw |]. split; [| exact Hlast].
    destruct Hfail as [err Hcfg | |]; [| reflexivity | reflexivity].
    destruct (retrieveKubeConfig_result e cfg0) as [[rc Hrc] | [err' [Herr HIs]]];
      congruence.
  - intros [e |]; [| rewrite run_nil_logger; discriminate].
    rewrite run_eq, retrieveKubeConfig_eq. cbv zeta.
    world_cases; unfold trace, outcome; simpl; try discriminate;
      intros _; do 3 eexists; (split; [reflexivity | split; eassumption]).
Qed.

(** [runCmd], computed from the result of [run]. *)
Lemma runCmd_eq (version : string) (c : cli.Context) :
  exists entry,
    prepareLogger version (cli.String c "log-level") (cli.Bool c "json")
      = Some entry /\
    runCmd w version c =
    match run w (SetupSignalHandler w) (Some entry) (config_LoadConfig w c) with
    | (Val (Some err), t) =>
        (Exit 1,
         t ++ [EvLog entry FatalLevel
                 ("eks-lens agent failed: " +:+ errors.Error err)])
    | (Val None, t) => (Val None, t)
    | other => other
    end.
Proof.
  unfold runCmd. rewrite prepareLogger_entry. eexists. split; [reflexivity |].
  match goal with |- context [run w ?a ?b ?d] => destruct (run w a b d) as [[[err |] | | |] t] end;
    unfold_agent; simpl; rewrite ?app_nil_r; reflexivity.
Qed.

(** No library call is made twice in one invocation. *)
Lemma runCmd_attempts (version : string) (c : cli.Context) (k : callKind) :
  (attempts k (trace (runCmd w version c)) <= 1)%nat.
Proof.
  destruct (runCmd_eq version c) as (entry & _ & ->).
  rewrite run_eq, retrieveKubeConfig_eq. cbv zeta.
  generalize (Entry_WithField entry "develop-mode"
                (AnyBool (DevelopMode (config_LoadConfig w c)))).
  generalize (KubeConfigPath (config_LoadConfig w c)).
  intros path started.
  world_cases; unfold trace; simpl;
    match goal with
    | |- context [errors.Error ?x] => generalize (errors.Error x); intros
    | _ => idtac
    end;
    destruct k; vm_compute; lia.
Qed.

(** C6.  A failure of any bootstrap step (kube-config retrieval,
    client construction, node resolution) comes out of [run] wrapped
    with the step's message and reaches the fatal log call of
    [runCmd], which ends the process with exit code 1; nothing is
    retried: no library call is made more than once. *)
Theorem bootstrap_failure_is_fatal (version : string) (c : cli.Context) :
  let ctx := SetupSignalHandler w in
  let log := prepareLogger version (cli.String c "log-level") (cli.Bool c "json") in
  let cfg := config_LoadConfig w c in
  (forall msg cause,
     bootstrap_failure w ctx log cfg msg cause ->
     outcome (run w ctx log cfg) = Val (Some (withMessage cause msg)) /\
     outcome (runCmd w version c) = Exit 1 /\
     exists entry,
       log = Some entry /\
       last (trace (runCmd w version c)) =
         Some (EvLog entry FatalLevel
                 ("eks-lens agent failed: " +:+ msg +:+ ": " +:+ errors.Error cause))) /\
  (forall k, (attempts k (trace (runCmd w version c)) <= 1)%nat).
Proof.
  cbv zeta. split; [| apply runCmd_attempts].
  intros msg cause Hfail.
  destruct (runCmd_eq version c) as (entry & Hlog & Hcmd).
  rewrite Hlog in *.
  destruct (run_bootstrap_failure _ _ _ _ _ Hfail) as (Hout & _).
  split; [exact Hout |].
  rewrite Hcmd. revert Hout.
  match goal with |- context [run w ?a ?b ?d] => destruct (run w a b d) as [r t] end.
  unfold outcome, trace; simpl. intros ->.
  split; [reflexivity |]. exists entry. split; [reflexivity |].
  simpl. apply last_snoc.
Qed.

(** The context [runCmd] starts from carries no value at all. *)
Lemma SetupSignalHandler_no_value (k : key) :
  Value (SetupSignalHandler w) k = None.
Proof. reflexivity. Qed.



End AgentFacts.

(** * The theorems at work on the sample worlds *)

Lemma retrieveKubeConfig_one_source_witness :
  uses InCluster
    (trace (retrieveKubeConfig Sample.workstation (Some Sample.logger)
              (Sample.config "/home/dev/.kube/config" false))) = false /\
  outcome (retrieveKubeConfig Sample.workstation (Some Sample.logger)
             (Sample.config "/home/dev/.kube/config" false))
    = Val (Some "https://cluster.example:6443", None).
Proof.
  destruct (retrieveKubeConfig_one_source Sample.workstation (Some Sample.logger)
              (Sample.config "/home/dev/.kube/config" false))
    as (_ & Hyield & _).
  destruct (Hyield "https://cluster.example:6443" None) as [Hnone Hret];
    [reflexivity |].
  split; [exact Hnone | apply (Hret Sample.logger); reflexivity].
Defined.

Lemma empty_path_uses_in_cluster_witness :
  attempts CallReadFile
    (trace (retrieveKubeConfig Sample.pod (Some Sample.logger)
              (Sample.config "" false))) = 0%nat /\
  head (trace (retrieveKubeConfig Sample.pod (Some Sample.logger)
                 (Sample.config "" false))) = Some EvInClusterConfig.
Proof.
  destruct (empty_path_uses_in_cluster Sample.pod (Some Sample.logger)
              (Sample.config "" false))
    as (_ & _ & Hread & _ & _ & Hfirst & _); [reflexivity |].
  split; [exact Hread | exact Hfirst].
Defined.

Lemma kubeConfigFromPath_failing_stage_witness :
  (exists err,
     kubeConfigFromPath Sample.workstation "/nonexistent" =
       (Val (None, Some err), [EvReadFile "/nonexistent"]) /\
     err = withMessage (External "open: no such file or directory")
             "reading kubeconfig at /nonexistent" /\
     failingStage err = Some ReadStage) /\
  (exists err,
     kubeConfigFromPath Sample.workstation "/etc/garbage" =
       (Val (None, Some err),
        [EvReadFile "/etc/garbage"; EvRESTConfigFromKubeConfig []]) /\
     err = withMessage
             (External "invalid configuration: no configuration has been provided")
             "building rest config from kubeconfig at /etc/garbage" /\
     failingStage err = Some ParseStage).
Proof.
  split.
  - apply (kubeConfigFromPath_failing_stage Sample.workstation "/nonexistent");
      [discriminate | reflexivity].
  - apply (kubeConfigFromPath_failing_stage Sample.workstation "/etc/garbage");
      [discriminate | reflexivity | reflexivity].
Defined.

Lemma run_returns_nil_on_cancellation_witness :
  outcome (run Sample.pod (SetupSignalHandler Sample.pod) (Some Sample.logger)
             (Sample.config "" true)) = Val None.
Proof.
  apply (run_returns_nil_on_cancellation Sample.pod
           (SetupSignalHandler Sample.pod) (Some Sample.logger)
           (Sample.config "" true)
           "client of https://10.0.0.1:443"
           (WithValue (WithCancel (WithCancel Background true) false)
              developModeKey (AnyBool true))
           (mkNode "gke-node-7")).
  - vm_compute. do 4 right. left. reflexivity.
  - reflexivity.
  - reflexivity.
Defined.

Lemma forbidden_node_lookup_fails :
  bootstrap_failure Sample.forbidden (SetupSignalHandler Sample.forbidden)
    (prepareLogger "v2.0.0" (cli.String (runContext ∅ ∅) "log-level")
       (cli.Bool (runContext ∅ ∅) "json"))
    (config_LoadConfig Sample.forbidden (runContext ∅ ∅))
    "getting node" (External "nodes is forbidden").
Proof.
  apply (FailNode Sample.forbidden _ _ _
           "https://10.0.0.1:443" "client of https://10.0.0.1:443");
    reflexivity.
Defined.

Lemma bootstrap_failure_is_fatal_witness :
  outcome (runCmd Sample.forbidden "v2.0.0" (runContext ∅ ∅)) = Exit 1.
Proof.
  destruct (bootstrap_failure_is_fatal Sample.forbidden "v2.0.0" (runContext ∅ ∅))
    as [Hfatal _].
  destruct (Hfatal "getting node" (External "nodes is forbidden")
              forbidden_node_lookup_fails) as (_ & Hexit & _).
  exact Hexit.
Defined.

Lemma run_waits_only_after_bootstrap_witness :
  awaits (trace (run Sample.workstation Background (Some Sample.logger)
                   (Sample.config "/nonexistent" false))) = false /\
  (exists rc cs n,
     outcome (retrieveKubeConfig Sample.pod (Some Sample.logger)
                (Sample.config "" false)) = Val (Some rc, None) /\
     kubernetes_NewForConfig Sample.pod rc = Ok cs /\
     node_GetNode Sample.pod cs
       (ctx (runFrame (SetupSignalHandler Sample.pod) (Sample.config "" false)))
       = Ok n).
Proof.
  split.
  - destruct (run_waits_only_after_bootstrap Sample.workstation Background
                (Sample.config "/nonexistent" false)) as [Hfail _].
    destruct (Hfail Sample.logger "retrieving kube config"
                (withMessage
                   (withMessage (External "open: no such file or directory")
                      "reading kubeconfig at /nonexistent")
                   "retrieving kube config from path")) as (_ & Hnowait & _);
      [apply FailKubeConfig; reflexivity | exact Hnowait].
  - apply (run_waits_only_after_bootstrap Sample.pod
             (SetupSignalHandler Sample.pod) (Sample.config "" false)).
    reflexivity.
Defined.



(** * Further properties of [cmd/main.go] *)

Section AgentMore.

Context {RestConfig Clientset : Type}.
Variable w : World RestConfig Clientset.

Ltac cases :=
  repeat match goal with
  | |- context [if String.eqb ?p "" then _ else _] =>
      destruct (String.eqb p "") eqn:?
  | |- context [match os_ReadFile w ?p with _ => _ end] =>
      destruct (os_ReadFile w p) eqn:?
  | |- context [match clientcmd_RESTConfigFromKubeConfig w ?d with _ => _ end] =>
      destruct (clientcmd_RESTConfigFromKubeConfig w d) eqn:?
  | |- context [match rest_InClusterConfig w with _ => _ end] =>
      destruct (rest_InClusterConfig w) eqn:?
  | |- context [match kubernetes_NewForConfig w ?rc with _ => _ end] =>
      destruct (kubernetes_NewForConfig w rc) eqn:?
  | |- context [match node_GetNode w ?cs ?x with _ => _ end] =>
      destruct (node_GetNode w cs x) eqn:?
  | |- context [if Done ?c then _ else _] =>
      destruct (Done c) eqn:?
  end.

(** Decide a membership hypothesis over a concrete trace. *)
Ltac pick Hin :=
  simpl in Hin;
  repeat (destruct Hin as [Hin | Hin]; try discriminate Hin);
  try contradiction.

(** X1.  [kubeConfigFromPath] returns exactly one of a config and an
    error; it succeeds only on a non-empty path, its error is the
    sentinel exactly when the path is empty, and it makes no call
    exactly in that case. *)
Theorem kubeConfigFromPath_sentinel_iff_empty (kubepath : string) :
  match outcome (kubeConfigFromPath w kubepath) with
  | Val (Some _, None) => kubepath <> ""
  | Val (None, Some e) => errors.Is e errEmptyPath = true <-> kubepath = ""
  | _ => False
  end /\
  (trace (kubeConfigFromPath w kubepath) = [] <-> kubepath = "").
Proof.
  rewrite kubeConfigFromPath_eq.
  destruct (String.eqb_spec kubepath "") as [-> | Hne].
  - simpl. tauto.
  - destruct (os_ReadFile w kubepath) as [data | m];
      [destruct (clientcmd_RESTConfigFromKubeConfig w data) |];
      unfold outcome, trace; simpl;
      (split;
       [ first [ exact Hne | split; [discriminate | intros Hp; contradiction] ]
       | split; [discriminate | intros Hp; contradiction] ]).
Qed.

(** X2.  With a non-empty kubeconfig path there is no fallback: in-cluster
    discovery is never attempted, and a file that cannot be read or
    parsed makes [retrieveKubeConfig] fail, whatever in-cluster
    discovery would have returned. *)
Theorem nonempty_path_never_falls_back (log : ptr Entry) (cfg0 : Config) :
  KubeConfigPath cfg0 <> "" ->
  attempts CallInCluster (trace (retrieveKubeConfig w log cfg0)) = 0%nat /\
  ((exists m, os_ReadFile w (KubeConfigPath cfg0) = Err m) \/
   (exists data m, os_ReadFile w (KubeConfigPath cfg0) = Ok data /\
                   clientcmd_RESTConfigFromKubeConfig w data = Err m) ->
   exists e, outcome (retrieveKubeConfig w log cfg0) = Val (None, Some e) /\
             errors.Is e errEmptyPath = false).
Proof.
  intros Hne. apply String.eqb_neq in Hne.
  rewrite retrieveKubeConfig_eq. cbv zeta. rewrite Hne.
  destruct (os_ReadFile w (KubeConfigPath cfg0)) as [data | m].
  - destruct (clientcmd_RESTConfigFromKubeConfig w data) as [k | m] eqn:Hparse.
    + destruct log; (split; [reflexivity |]);
        intros [[m Hm] | (d & m & Hd & Hm)]; [discriminate Hm | | discriminate Hm |];
        injection Hd as <-; congruence.
    + split; [reflexivity |]. intros _. eexists. split; reflexivity.
  - split; [reflexivity |]. intros _. eexists. split; reflexivity.
Qed.

(** X3.  The debug line of [retrieveKubeConfig] names the source that
    supplied the config: one line on success ("using kube config from
    env variables" for the file, "using in node kube config" for
    discovery), none on failure. *)
Theorem retrieveKubeConfig_log_names_source (e : Entry) (cfg0 : Config) :
  let r := retrieveKubeConfig w (Some e) cfg0 in
  logLines (trace r) =
  match outcome r with
  | Val (Some _, None) =>
      [(e, DebugLevel,
        if uses KubeConfigFile (trace r)
        then "using kube config from env variables"
        else "using in node kube config")]
  | _ => []
  end.
Proof.
  cbv zeta. rewrite retrieveKubeConfig_eq. cbv zeta.
  cases; reflexivity.
Qed.

(** X4.  What [run] hands on: the config given to
    [kubernetes.NewForConfig] is the one [retrieveKubeConfig] returned,
    and the clientset whose node is looked up is the one built from
    that config. *)
Theorem run_data_flow (c : Context) (log : ptr Entry) (cfg0 : Config) :
  (forall rc, In (EvNewForConfig rc) (trace (run w c log cfg0)) ->
     outcome (retrieveKubeConfig w log cfg0) = Val (Some rc, None)) /\
  (forall cs x, In (EvGetNode cs x) (trace (run w c log cfg0)) ->
     exists rc, In (EvNewForConfig rc) (trace (run w c log cfg0)) /\
                kubernetes_NewForConfig w rc = Ok cs).
Proof.
  destruct log as [e |].
  - rewrite run_eq, retrieveKubeConfig_eq. cbv zeta.
    split; [intros rc | intros cs x];
      cases; unfold trace, outcome; cbn [fst snd app]; intros Hin; pick Hin.
    all: try (injection Hin as <-; reflexivity).
    all: injection Hin as <- _; eexists; (split; [| eassumption]);
      simpl; tauto.
  - rewrite run_nil_logger. split; intros; pick H.
Qed.

(** X5.  The library calls of [run] are made in one fixed order, each at
    most once: the credential calls (read then parse, or discovery),
    then client construction, then node resolution.  [run] stops at the
    first call that fails: after a call that returned an error it makes
    no further library call and does not wait.  It reaches the wait
    only after the full sequence. *)
Theorem run_call_order (c : Context) (log : ptr Entry) (cfg0 : Config) :
  let t := trace (run w c log cfg0) in
  (kinds t `prefix_of` [CallReadFile; CallParse; CallNewForConfig; CallGetNode] \/
   kinds t `prefix_of` [CallInCluster; CallNewForConfig; CallGetNode]) /\
  (awaits t = true ->
   kinds t = [CallReadFile; CallParse; CallNewForConfig; CallGetNode] \/
   kinds t = [CallInCluster; CallNewForConfig; CallGetNode]) /\
  (forall pre ev post,
     t = pre ++ ev :: post -> callFailed w ev = true ->
     kinds post = [] /\ awaits post = false).
Proof.
  cbv zeta. destruct log as [e |].
  - rewrite run_eq, retrieveKubeConfig_eq. cbv zeta.
    cases; unfold trace; cbn [fst snd app].
    all: split;
      [ cbn [kinds omap list_omap kindOf];
        first [ left; eexists; reflexivity | right; eexists; reflexivity ] |].
    all: split;
      [ cbn [kinds omap list_omap kindOf awaits existsb orb];
        try discriminate; intros _; tauto |].
    all: intros pre ev post Hsplit Hfail;
      repeat (destruct pre as [| ? pre]; cbn [app] in Hsplit;
              [ injection Hsplit as <- <-; cbn [callFailed] in Hfail;
                try discriminate Hfail;
                repeat match goal with
                       | H : _ = Ok _ |- _ => rewrite H in Hfail
                       end;
                try discriminate Hfail; split; reflexivity
              | injection Hsplit as _ Hsplit ]);
      destruct pre; discriminate Hsplit.
  - rewrite run_nil_logger. split; [left; eexists; reflexivity |].
    split; [discriminate |].
    intros pre ev post Hsplit Hfail. unfold trace in Hsplit. cbn [snd] in Hsplit.
    destruct pre as [| ? pre]; cbn [app] in Hsplit.
    + injection Hsplit as <- <-. discriminate Hfail.
    + injection Hsplit as _ Hsplit. destruct pre; discriminate Hsplit.
Qed.

(** X6.  The deferred cancel: whenever [run] returns (or panics), the
    cancel of its derived context is its last action and happens once;
    while [run] is blocked in the wait, it has not happened. *)
Theorem run_cancel_deferred (c : Context) (log : ptr Entry) (cfg0 : Config) :
  let r := run w c log cfg0 in
  match outcome r with
  | Block => Forall (fun ev => isCancel ev = false) (trace r)
  | _ => exists pre,
           trace r = pre ++ [EvCancel (WithCancel c false)] /\
           Forall (fun ev => isCancel ev = false) pre
  end.
Proof.
  cbv zeta. destruct log as [e |].
  - rewrite run_eq, retrieveKubeConfig_eq. cbv zeta.
    cases; unfold trace, outcome; cbn [fst snd app];
      first
        [ solve [repeat constructor]
        | match goal with
          | |- exists pre, ?t = _ /\ _ =>
              exists (removelast t); split; [reflexivity | repeat constructor]
          end ].
  - rewrite run_nil_logger. exists []. split; [reflexivity | constructor].
Qed.

(** X7.  [run] returns nil only by way of the wait: a nil result means
    the wait was reached and the context was cancelled; a blocked [run]
    is blocked in the wait, on a context that is never cancelled. *)
Theorem run_nil_only_after_wait (c : Context) (log : ptr Entry) (cfg0 : Config) :
  let r := run w c log cfg0 in
  (outcome r = Val None -> awaits (trace r) = true /\ Done c = true) /\
  (outcome r = Block -> awaits (trace r) = true /\ Done c = false).
Proof.
  cbv zeta. destruct log as [e |].
  - rewrite run_eq, retrieveKubeConfig_eq. cbv zeta.
    cases; unfold trace, outcome; cbn [fst snd];
      split; intros Hout; try discriminate Hout; split; reflexivity.
  - rewrite run_nil_logger. split; discriminate.
Qed.

(** X8.  The text of every error [run] returns: the chain of messages
    from the outermost wrap to the library's own message, which tells
    the step and, for the kubeconfig, the stage and the path. *)
Theorem run_error_messages (c : Context) (e : Entry) (cfg0 : Config) (err : error) :
  outcome (run w c (Some e) cfg0) = Val (Some err) ->
  let path := KubeConfigPath cfg0 in
  (exists m, os_ReadFile w path = Err m /\
     errors.Error err =
       "retrieving kube config: retrieving kube config from path: reading kubeconfig at "
       +:+ path +:+ ": " +:+ m) \/
  (exists data m, os_ReadFile w path = Ok data /\
     clientcmd_RESTConfigFromKubeConfig w data = Err m /\
     errors.Error err =
       "retrieving kube config: retrieving kube config from path: building rest config from kubeconfig at "
       +:+ path +:+ ": " +:+ m) \/
  (exists m, path = "" /\ rest_InClusterConfig w = Err m /\
     errors.Error err =
       "retrieving kube config: retrieving in node kube config: " +:+ m) \/
  (exists rc m, kubernetes_NewForConfig w rc = Err m /\
     errors.Error err = "initializing kubernetes client: " +:+ m) \/
  (exists cs m, node_GetNode w cs (ctx (runFrame c cfg0)) = Err m /\
     errors.Error err = "getting node: " +:+ m).
Proof.
  rewrite run_eq, retrieveKubeConfig_eq. cbv zeta.
  destruct (String.eqb_spec (KubeConfigPath cfg0) "") as [Hpath | Hpath];
    cases; unfold outcome; cbn [fst]; intros Hout;
    try discriminate Hout; injection Hout as <-.
  - do 3 right. right. do 2 eexists. split; [eassumption | reflexivity].
  - do 3 right. left. do 2 eexists. split; [eassumption | reflexivity].
  - do 2 right. left. eexists. split; [exact Hpath |]. split; reflexivity.
  - do 3 right. right. do 2 eexists. split; [eassumption | reflexivity].
  - do 3 right. left. do 2 eexists. split; [eassumption | reflexivity].
  - right. left. do 2 eexists. split; [reflexivity |]. split; [eassumption |].
    reflexivity.
  - left. eexists. split; reflexivity.
Qed.

(** X9.  The start line alone carries the develop-mode field: the first
    thing [run] does is log "kubeip agent started" at info level through
    an entry that adds [develop-mode] (the configuration's value) to the
    logger's fields and changes no other field; every later line goes
    through the logger as it was given. *)
Theorem run_start_line (c : Context) (e : Entry) (cfg0 : Config) :
  exists started rest,
    logLines (trace (run w c (Some e) cfg0)) =
      (started, InfoLevel, "kubeip agent started") :: rest /\
    head (trace (run w c (Some e) cfg0)) =
      Some (EvLog started InfoLevel "kubeip agent started") /\
    Data started !! "develop-mode" = Some (AnyBool (DevelopMode cfg0)) /\
    (forall k, k <> "develop-mode" -> Data started !! k = Data e !! k) /\
    Logger_ started = Logger_ e /\
    Forall (fun l => l.1.1 = e) rest.
Proof.
  exists (Entry_WithField e "develop-mode" (AnyBool (DevelopMode cfg0))).
  rewrite run_eq, retrieveKubeConfig_eq. cbv zeta.
  cases; unfold trace; cbn [fst snd app logLines omap list_omap head];
    eexists; (split; [reflexivity |]); (split; [reflexivity |]);
    (split; [apply lookup_insert_eq |]);
    (split; [intros k Hk; apply lookup_insert_ne; congruence |]);
    (split; [reflexivity |]); repeat constructor.
Qed.

Lemma Done_SetupSignalHandler : Done (SetupSignalHandler w) = shutdown_signal w.
Proof. apply orb_false_r. Qed.

(** X10.  How [runCmd] can end.  It never panics and never returns an
    error: it returns nil, after the wait and only when the shutdown
    signal is delivered; or it stays blocked in the wait, when no signal
    is; or it exits with code 1, the fatal line being the last thing it
    does, without having reached the wait.  The fatal line is logged in
    no other case. *)
Theorem runCmd_outcomes (version : string) (c : cli.Context) :
  let r := runCmd w version c in
  (outcome r = Val None /\ awaits (trace r) = true /\ shutdown_signal w = true /\
   Forall (fun ev => isFatalLog ev = false) (trace r)) \/
  (outcome r = Block /\ awaits (trace r) = true /\ shutdown_signal w = false /\
   Forall (fun ev => isFatalLog ev = false) (trace r)) \/
  (outcome r = Exit 1 /\ awaits (trace r) = false /\
   exists pre ev, trace r = pre ++ [ev] /\ isFatalLog ev = true /\
                  Forall (fun ev => isFatalLog ev = false) pre).
Proof.
  cbv zeta. destruct (runCmd_eq w version c) as (entry & _ & ->).
  rewrite run_eq, retrieveKubeConfig_eq. cbv zeta.
  rewrite <- Done_SetupSignalHandler.
  cases; unfold trace, outcome; cbn [fst snd app].
  all: first
    [ left; split; [reflexivity |]; split; [reflexivity |];
      split; [reflexivity |]; solve [repeat constructor]
    | right; left; split; [reflexivity |]; split; [reflexivity |];
      split; [reflexivity |]; solve [repeat constructor]
    | right; right; split; [reflexivity |]; split; [reflexivity |];
      match goal with
      | |- exists pre ev, ?t = _ /\ _ =>
          exists (removelast t); eexists;
          split; [reflexivity |]; split; [reflexivity |];
          solve [repeat constructor]
      end ].
Qed.

End AgentMore.

(** X11.  Left to its defaults, the agent logs at info level in text
    format: with neither [log-level] nor [LOG_LEVEL] given the logger
    [runCmd] prepares is at the info level, and with neither [json] nor
    [LOG_JSON] given it uses the text formatter with full timestamps. *)
Theorem default_logger (version : string) (args env : gmap string cli.value) :
  let c := runContext args env in
  let log := prepareLogger version (cli.String c "log-level") (cli.Bool c "json") in
  (args !! "log-level" = None -> env !! "LOG_LEVEL" = None ->
   levelOf log = Some InfoLevel) /\
  (args !! "json" = None -> env !! "LOG_JSON" = None ->
   (fun e => Formatter_ (Logger_ e)) <$> log = Some (TextFormatter true)).
Proof.
  cbv zeta. rewrite prepareLogger_entry. split; intros Hargs Henv.
  - unfold levelOf. simpl. f_equal.
    unfold cli.String at 1.
    change (cli.flagNamed (runContext args env) "log-level")
      with (Some (cli.mkFlag "log-level"
        "set log level (debug, info(*), warning, error, fatal, panic)"
        ["LOG_LEVEL"] (cli.VString "info") "Logging")).
    simpl fmap. rewrite lookup_absent; [reflexivity | exact Hargs |].
    simpl. rewrite Henv. reflexivity.
  - simpl. f_equal.
    unfold cli.Bool.
    change (cli.flagNamed (runContext args env) "json")
      with (Some (cli.mkFlag "json"
        "produce log in JSON format: Logstash and Splunk friendly"
        ["LOG_JSON"] (cli.VBool false) "Logging")).
    simpl fmap. rewrite lookup_absent; [reflexivity | exact Hargs |].
    simpl. rewrite Henv. reflexivity.
Qed.

(** * Properties of the chart's named templates *)

(** ** Strings as byte lists *)

Lemma bytesOf_length (s : string) : length (bytesOf s) = String.length s.
Proof. induction s as [| a s IH]; simpl; [reflexivity | now rewrite IH]. Qed.

Lemma bytesOf_inj (s t : string) : bytesOf s = bytesOf t -> s = t.
Proof.
  intros H. rewrite <- (string_of_list_ascii_of_string s),
    <- (string_of_list_ascii_of_string t).
  unfold bytesOf in H. now rewrite H.
Qed.

Lemma bytesOf_append (a b : string) : bytesOf (a +:+ b) = bytesOf a ++ bytesOf b.
Proof. induction a as [| x a IH]; simpl; [reflexivity | now rewrite IH]. Qed.

Lemma bytesOf_substring (s : string) :
  forall n m, bytesOf (String.substring n m s) = take m (drop n (bytesOf s)).
Proof.
  induction s as [| a s IH]; intros [| n] [| m]; simpl; try reflexivity.
  - now rewrite IH.
  - apply IH.
  - apply IH.
Qed.

Lemma bytesOf_trunc (c : nat) (s : string) :
  bytesOf (sprig.trunc c s) = take c (bytesOf s).
Proof.
  unfold sprig.trunc. destruct (Nat.ltb_spec c (String.length s)).
  - now rewrite bytesOf_substring.
  - rewrite take_ge; [reflexivity | rewrite bytesOf_length; lia].
Qed.

Lemma hasSuffix_spec (s suffix : string) :
  sprig.hasSuffix s suffix = true <-> bytesOf suffix `suffix_of` bytesOf s.
Proof.
  unfold sprig.hasSuffix. rewrite andb_true_iff, Nat.leb_le, String.eqb_eq.
  split.
  - intros [Hle Heq]. apply (f_equal bytesOf) in Heq.
    rewrite bytesOf_substring in Heq.
    rewrite take_ge in Heq by (rewrite length_drop, !bytesOf_length; lia).
    exists (take (String.length s - String.length suffix) (bytesOf s)).
    rewrite <- Heq. symmetry. apply take_drop.
  - intros [k Hk].
    assert (Hlen : String.length s = (length k + String.length suffix)%nat).
    { rewrite <- !bytesOf_length, Hk, length_app. reflexivity. }
    split; [lia |]. apply bytesOf_inj.
    rewrite bytesOf_substring, Hk.
    replace (String.length s - String.length suffix)%nat with (length k) by lia.
    rewrite drop_app_length. apply take_ge. rewrite bytesOf_length. lia.
Qed.

Lemma bytesOf_trimSuffix (suffix s : string) :
  bytesOf (sprig.trimSuffix suffix s) =
  if sprig.hasSuffix s suffix
  then take (String.length s - String.length suffix) (bytesOf s)
  else bytesOf s.
Proof.
  unfold sprig.trimSuffix. destruct (sprig.hasSuffix s suffix); [| reflexivity].
  rewrite bytesOf_substring. reflexivity.
Qed.

Lemma trimSuffix_prefix (suffix s : string) :
  bytesOf (sprig.trimSuffix suffix s) `prefix_of` bytesOf s.
Proof.
  rewrite bytesOf_trimSuffix. destruct (sprig.hasSuffix s suffix);
    [apply prefix_take | reflexivity].
Qed.

Lemma trimSuffix_length (suffix s : string) :
  (String.length (sprig.trimSuffix suffix s) <= String.length s)%nat.
Proof.
  rewrite <- !bytesOf_length. apply prefix_length, trimSuffix_prefix.
Qed.

Lemma trunc_length (c : nat) (s : string) :
  (String.length (sprig.trunc c s) <= c)%nat.
Proof. rewrite <- bytesOf_length, bytesOf_trunc, length_take. lia. Qed.

Lemma trunc_short (c : nat) (s : string) :
  (String.length s <= c)%nat -> sprig.trunc c s = s.
Proof.
  intros H. unfold sprig.trunc.
  destruct (Nat.ltb_spec c (String.length s)); [lia | reflexivity].
Qed.

(** The pipeline [| trunc 63 | trimSuffix "-"] every name ends with. *)
Lemma pipeline_length (s : string) :
  (String.length (sprig.trimSuffix "-" (sprig.trunc 63 s)) <= 63)%nat.
Proof.
  etransitivity; [apply trimSuffix_length | apply trunc_length].
Qed.

Lemma pipeline_prefix (s : string) :
  bytesOf (sprig.trimSuffix "-" (sprig.trunc 63 s)) `prefix_of` bytesOf s.
Proof.
  etransitivity; [apply trimSuffix_prefix |].
  rewrite bytesOf_trunc. apply prefix_take.
Qed.

Lemma pipeline_short (s : string) :
  (String.length s <= 63)%nat -> sprig.hasSuffix s "-" = false ->
  sprig.trimSuffix "-" (sprig.trunc 63 s) = s.
Proof.
  intros Hlen Hdash. rewrite trunc_short by exact Hlen.
  unfold sprig.trimSuffix. now rewrite Hdash.
Qed.

Lemma hasSuffix_false (s suffix : string) :
  sprig.hasSuffix s suffix = false <-> ~ bytesOf suffix `suffix_of` bytesOf s.
Proof.
  rewrite <- hasSuffix_spec. destruct (sprig.hasSuffix s suffix); split;
    congruence.
Qed.

(** ** The helpers *)

Import helpers.

Lemma fullname_length (dot : Dot) :
  (String.length (kubeip_fullname dot) <= 63)%nat.
Proof.
  unfold kubeip_fullname.
  repeat match goal with
         | |- context [if ?b then _ else _] => destruct b
         end; apply pipeline_length.
Qed.

(** X12.  Every generated name fits a Kubernetes name field: the chart
    name, the full name and the chart label are at most 63 bytes long,
    whatever the chart, release and overrides. *)
Theorem names_fit (dot : Dot) :
  (String.length (kubeip_name dot) <= 63)%nat /\
  (String.length (kubeip_fullname dot) <= 63)%nat /\
  (String.length (kubeip_chart dot) <= 63)%nat.
Proof.
  split; [apply pipeline_length |].
  split; [apply fullname_length | apply pipeline_length].
Qed.

Lemma replace_plus_free (s : string) : "+"%char ∉ bytesOf (sprig.replace "+" "_" s).
Proof.
  induction s as [| a s IH]; simpl.
  - apply not_elem_of_nil.
  - destruct (Ascii.eqb_spec a "+") as [-> | Hne]; simpl.
    + apply not_elem_of_cons. split; [discriminate | exact IH].
    + apply not_elem_of_cons. split; [congruence | exact IH].
Qed.

(** X13.  The chart label never contains a plus sign (which a label
    value may not hold): every ["+"] of the chart version is replaced
    by ["_"] before the label is cut to size. *)
Theorem chart_label_has_no_plus (dot : Dot) :
  "+"%char ∉ bytesOf (kubeip_chart dot).
Proof.
  unfold kubeip_chart. intros Hin.
  eapply replace_plus_free.
  eapply elem_of_prefix; [exact Hin | apply pipeline_prefix].
Qed.

Lemma contains_empty (s : string) : sprig.contains "" s = true.
Proof. unfold sprig.contains. destruct s; reflexivity. Qed.

Lemma last_byte_append (a b : string) :
  b <> "" -> sprig.hasSuffix (a +:+ b) "-" = sprig.hasSuffix b "-".
Proof.
  intros Hb.
  assert (Hlast : forall s, sprig.hasSuffix s "-" = true <->
                            last (bytesOf s) = Some "-"%char).
  { intros s. rewrite hasSuffix_spec, last_Some. reflexivity. }
  assert (Heq : last (bytesOf (a +:+ b)) = last (bytesOf b)).
  { rewrite bytesOf_append, last_app.
    destruct (last (bytesOf b)) eqn:E; [reflexivity |].
    apply last_None in E. destruct b; [contradiction | discriminate E]. }
  destruct (sprig.hasSuffix (a +:+ b) "-") eqn:E1,
           (sprig.hasSuffix b "-") eqn:E2; try reflexivity.
  - apply Hlast in E1. rewrite Heq in E1. apply Hlast in E1. congruence.
  - apply Hlast in E2. rewrite <- Heq in E2. apply Hlast in E2. congruence.
Qed.

(** X14.  The usual full name.  With no [fullnameOverride], a release
    name that does not contain the chart's name, and room for both, the
    full name is exactly [<release>-<name>], where [<name>] is
    [nameOverride] or else the chart name (and does not end in a
    dash). *)
Theorem fullname_is_release_dash_name (dot : Dot) :
  let name := sprig.default (Chart_Name (chart dot)) (nameOverride (values dot)) in
  fullnameOverride (values dot) = "" ->
  sprig.contains name (Release_Name (release dot)) = false ->
  (String.length (Release_Name (release dot)) + 1 + String.length name <= 63)%nat ->
  sprig.hasSuffix name "-" = false ->
  kubeip_fullname dot = Release_Name (release dot) +:+ "-" +:+ name.
Proof.
  cbv zeta. intros Hov Hcontains Hlen Hdash.
  unfold kubeip_fullname. rewrite Hov, Hcontains. cbn [nonEmpty String.eqb negb].
  unfold sprig.printf_dash.
  assert (Hname : sprig.default (Chart_Name (chart dot)) (nameOverride (values dot)) <> "").
  { intros E. rewrite E, contains_empty in Hcontains. discriminate. }
  apply pipeline_short.
  - rewrite <- bytesOf_length, !bytesOf_append, !length_app, !bytesOf_length.
    simpl. lia.
  - rewrite last_byte_append.
    + rewrite last_byte_append; assumption.
    + intros E. destruct (Release_Name (release dot)); discriminate E.
Qed.

(** X15.  No doubled name.  With no [fullnameOverride], a release name
    that already contains the chart's name is used alone: the full name
    is a prefix of the release name, and is the release name itself when
    that fits and does not end in a dash. *)
Theorem fullname_of_release_containing_name (dot : Dot) :
  let name := sprig.default (Chart_Name (chart dot)) (nameOverride (values dot)) in
  fullnameOverride (values dot) = "" ->
  sprig.contains name (Release_Name (release dot)) = true ->
  bytesOf (kubeip_fullname dot) `prefix_of` bytesOf (Release_Name (release dot)) /\
  ((String.length (Release_Name (release dot)) <= 63)%nat ->
   sprig.hasSuffix (Release_Name (release dot)) "-" = false ->
   kubeip_fullname dot = Release_Name (release dot)).
Proof.
  cbv zeta. intros Hov Hcontains.
  unfold kubeip_fullname. rewrite Hov, Hcontains. cbn [nonEmpty String.eqb negb].
  split; [apply pipeline_prefix | apply pipeline_short].
Qed.

(** X16.  Only one trailing dash is trimmed: the chart name ends in a
    dash exactly when its source, cut to 63 bytes, ends in two. *)
Theorem name_trailing_dash (dot : Dot) :
  sprig.hasSuffix (kubeip_name dot) "-" =
  sprig.hasSuffix
    (sprig.trunc 63
       (sprig.default (Chart_Name (chart dot)) (nameOverride (values dot))))
    "--".
Proof.
  unfold kubeip_name.
  generalize (sprig.trunc 63
    (sprig.default (Chart_Name (chart dot)) (nameOverride (values dot)))).
  intros s.
  apply eq_true_iff_eq. rewrite !hasSuffix_spec, bytesOf_trimSuffix.
  destruct (sprig.hasSuffix s "-") eqn:Hdash.
  - apply hasSuffix_spec in Hdash. destruct Hdash as [k Hk].
    assert (Hlen : (String.length s - String.length "-")%nat = length k).
    { rewrite <- bytesOf_length, Hk, length_app. simpl. lia. }
    rewrite Hlen, Hk, take_app_length.
    change (bytesOf "--") with (bytesOf "-" ++ bytesOf "-").
    split.
    + apply suffix_app.
    + intros H. eapply suffix_app_inv. exact H.
  - apply hasSuffix_false in Hdash. split; intros H.
    + contradiction.
    + exfalso. apply Hdash. eapply suffix_cons_l. exact H.
Qed.

(** X17.  The service account name.  A name given in the values is used
    as it is, whether or not the account is created, and is not cut to
    size; with no name given the account is the full name when it is
    created (hence at most 63 bytes) and ["default"] when it is not. *)
Theorem serviceAccountName_cases (dot : Dot) :
  let sa := serviceAccount (values dot) in
  (name sa <> "" -> kubeip_serviceAccountName dot = name sa) /\
  (name sa = "" -> create sa = true ->
   kubeip_serviceAccountName dot = kubeip_fullname dot /\
   (String.length (kubeip_serviceAccountName dot) <= 63)%nat) /\
  (name sa = "" -> create sa = false ->
   kubeip_serviceAccountName dot = "default").
Proof.
  cbv zeta. unfold kubeip_serviceAccountName, sprig.default.
  split; [| split].
  - intros Hname. apply String.eqb_neq in Hname. rewrite Hname.
    destruct (create (serviceAccount (values dot))); reflexivity.
  - intros -> ->. simpl. split; [reflexivity | apply fullname_length].
  - intros -> ->. reflexivity.
Qed.

(** * The further theorems at work on the sample worlds *)

Lemma kubeConfigFromPath_sentinel_iff_empty_witness :
  trace (kubeConfigFromPath Sample.pod "") = [] /\
  ~ errors.Is (withMessage (External "open: no such file or directory")
                 "reading kubeconfig at /nonexistent") errEmptyPath = true.
Proof.
  split.
  - apply (proj2 (kubeConfigFromPath_sentinel_iff_empty Sample.pod "")).
    reflexivity.
  - intros H.
    apply (proj1 (kubeConfigFromPath_sentinel_iff_empty Sample.pod "/nonexistent"))
      in H.
    discriminate H.
Defined.

Lemma nonempty_path_never_falls_back_witness :
  rest_InClusterConfig Sample.pod = Ok "https://10.0.0.1:443" /\
  exists e,
    outcome (retrieveKubeConfig Sample.pod (Some Sample.logger)
               (Sample.config "/nonexistent" false)) = Val (None, Some e).
Proof.
  split; [reflexivity |].
  destruct (nonempty_path_never_falls_back Sample.pod (Some Sample.logger)
              (Sample.config "/nonexistent" false)) as [_ Hfail];
    [discriminate |].
  destruct Hfail as (e & He & _); [left; eexists; reflexivity |].
  exists e. exact He.
Defined.

Lemma run_data_flow_witness :
  exists rc,
    In (EvNewForConfig rc)
       (trace (run Sample.pod Background (Some Sample.logger)
                 (Sample.config "" false))) /\
    kubernetes_NewForConfig Sample.pod rc = Ok "client of https://10.0.0.1:443".
Proof.
  apply (proj2 (run_data_flow Sample.pod Background (Some Sample.logger)
                  (Sample.config "" false))
           "client of https://10.0.0.1:443" (WithCancel Background false)).
  vm_compute. do 4 right. left. reflexivity.
Defined.

Lemma run_call_order_witness :
  (kinds (trace (run Sample.pod Background (Some Sample.logger)
                   (Sample.config "" false)))
     = [CallReadFile; CallParse; CallNewForConfig; CallGetNode] \/
   kinds (trace (run Sample.pod Background (Some Sample.logger)
                   (Sample.config "" false)))
     = [CallInCluster; CallNewForConfig; CallGetNode]) /\
  kinds [EvCancel (WithCancel Background false)
         : event string string] = [] /\
  awaits [EvCancel (WithCancel Background false)
          : event string string] = false.
Proof.
  split.
  - apply (proj1 (proj2 (run_call_order Sample.pod Background (Some Sample.logger)
                           (Sample.config "" false)))).
    reflexivity.
  - apply (proj2 (proj2 (run_call_order Sample.workstation Background
                           (Some Sample.logger) (Sample.config "/nonexistent" false)))
             [EvLog (Entry_WithField Sample.logger "develop-mode" (AnyBool false))
                    InfoLevel "kubeip agent started"]
             (EvReadFile "/nonexistent")).
    + reflexivity.
    + reflexivity.
Defined.

Lemma run_nil_only_after_wait_witness :
  awaits (trace (run Sample.pod (SetupSignalHandler Sample.pod)
                   (Some Sample.logger) (Sample.config "" false))) = true /\
  Done (SetupSignalHandler Sample.pod) = true.
Proof.
  apply (proj1 (run_nil_only_after_wait Sample.pod (SetupSignalHandler Sample.pod)
                  (Some Sample.logger) (Sample.config "" false))).
  reflexivity.
Defined.

Lemma run_error_messages_witness :
  exists cs m,
    node_GetNode Sample.forbidden cs
      (ctx (runFrame Background (Sample.config "" false))) = Err m /\
    errors.Error (withMessage (External "nodes is forbidden") "getting node")
      = "getting node: " +:+ m.
Proof.
  destruct (run_error_messages Sample.forbidden Background Sample.logger
              (Sample.config "" false)
              (withMessage (External "nodes is forbidden") "getting node")
              eq_refl)
    as [(m & _ & H) | [(d & m & _ & _ & H) | [(m & _ & _ & H) |
        [(rc & m & _ & H) | H]]]];
    try discriminate H.
  exact H.
Defined.

Lemma run_start_line_witness :
  exists started,
    head (trace (run Sample.pod Background (Some Sample.logger)
                   (Sample.config "" true)))
      = Some (EvLog started InfoLevel "kubeip agent started") /\
    Data started !! "develop-mode" = Some (AnyBool true) /\
    Data started !! "version" = None.
Proof.
  destruct (run_start_line Sample.pod Background Sample.logger
              (Sample.config "" true))
    as (started & rest & _ & Hhead & Hdev & Hother & _).
  exists started. split; [exact Hhead |]. split; [exact Hdev |].
  rewrite (Hother "version"); [reflexivity | discriminate].
Defined.

Lemma default_logger_witness :
  levelOf (prepareLogger "v2.0.0" (cli.String (runContext ∅ ∅) "log-level")
             (cli.Bool (runContext ∅ ∅) "json")) = Some InfoLevel.
Proof.
  apply (proj1 (default_logger "v2.0.0" ∅ ∅)); reflexivity.
Defined.

Lemma fullname_is_release_dash_name_witness :
  kubeip_fullname (plain "kubeip" "2.0.0" "prod") = "prod-kubeip".
Proof.
  apply (fullname_is_release_dash_name (plain "kubeip" "2.0.0" "prod"));
    [reflexivity | reflexivity | vm_compute; lia | reflexivity].
Defined.

Lemma fullname_of_release_containing_name_witness :
  kubeip_fullname (plain "kubeip" "2.0.0" "kubeip-prod") = "kubeip-prod".
Proof.
  apply (fullname_of_release_containing_name (plain "kubeip" "2.0.0" "kubeip-prod"));
    [reflexivity | reflexivity | vm_compute; lia | reflexivity].
Defined.

Lemma serviceAccountName_cases_witness :
  kubeip_serviceAccountName
    (mkDot (mkChart "kubeip" "2.0.0") (mkRelease "prod" "kube-system")
       (mkValues "" "" "" (mkServiceAccount false "kubeip-sa"))) = "kubeip-sa" /\
  kubeip_serviceAccountName
    (mkDot (mkChart "kubeip" "2.0.0") (mkRelease "prod" "kube-system")
       (mkValues "" "" "" (mkServiceAccount false ""))) = "default".
Proof.
  split.
  - apply (serviceAccountName_cases
             (mkDot (mkChart "kubeip" "2.0.0") (mkRelease "prod" "kube-system")
                (mkValues "" "" "" (mkServiceAccount false "kubeip-sa")))).
    discriminate.
  - apply (serviceAccountName_cases
             (mkDot (mkChart "kubeip" "2.0.0") (mkRelease "prod" "kube-system")
                (mkValues "" "" "" (mkServiceAccount false ""))));
      reflexivity.
Defined.
